(** * PKI fetch paths: [pathFetchRead] and [pathFetchCertListDetailed]

    A shallow embedding of [builtin/logical/pki/path_fetch.go].

    Go's [string] and [[]byte] are both finite sequences of bytes and the
    conversions [string(b)] and [[]byte(s)] copy the bytes unchanged; both
    are rendered here by [string] (sequences of 8-bit characters), so the
    conversions disappear and [len] is [String.length].  A nil pointer is
    [None].  Functions of the backend that live in other files of the
    package (the conditional-request helper, the certificate and CA
    look-ups, JSON decoding of a storage entry) are fields of the
    environment record [Backend]; the handlers are functions of it. *)

From Stdlib Require Import ZArith NArith Ascii String.
From stdpp Require Import gmap strings list fin_maps.

Local Open Scope string_scope.
Local Open Scope Z_scope.

(** ** Text: the pieces of Go's [strings] package that the handlers call *)

Module Text.

Definition nl : ascii := "010"%char.

(** The [asciiSpace] table of package [strings]:
    tab, line feed, vertical tab, form feed, carriage return, space. *)
Definition asciiSpace (c : ascii) : bool :=
  let n := N_of_ascii c in
  ((9 <=? n) && (n <=? 13) || (n =? 32))%N.

(** Bytes below [utf8.RuneSelf]. *)
Definition isASCII (c : ascii) : bool := (N_of_ascii c <? 128)%N.

Fixpoint trimLeft (s : string) : string :=
  match s with
  | String c r => if asciiSpace c then trimLeft r else s
  | EmptyString => EmptyString
  end.

Fixpoint trimRight (s : string) : string :=
  match s with
  | String c r =>
      match trimRight r with
      | EmptyString => if asciiSpace c then EmptyString else String c EmptyString
      | r' => String c r'
      end
  | EmptyString => EmptyString
  end.

(** [strings.TrimSpace] on its ASCII path: the first scan stops at the
    first byte that is not an ASCII space, the second scan does the same
    from the end.  (On a byte >= 0x80 Go switches to a Unicode-aware
    scan; every text trimmed by the handlers is PEM text, which is pure
    ASCII, see [EncodeToMemory_ascii].) *)
Definition TrimSpace (s : string) : string := trimRight (trimLeft s).

(** [strings.Join(elems, sep)]. *)
Fixpoint Join (elems : list string) (sep : string) : string :=
  match elems with
  | [] => ""
  | [e] => e
  | e :: rest => e +:+ sep +:+ Join rest sep
  end.

(** [strings.Split(s, "\n")]: the lines of a text. *)
Fixpoint splitLines (s : string) : list string :=
  match s with
  | EmptyString => [""]
  | String c r =>
      if Ascii.eqb c nl then "" :: splitLines r
      else match splitLines r with
           | l :: ls => String c l :: ls
           | [] => [String c ""]
           end
  end.

Fixpoint allSpace (s : string) : bool :=
  match s with
  | EmptyString => true
  | String c r => asciiSpace c && allSpace r
  end.

Fixpoint allASCII (s : string) : bool :=
  match s with
  | EmptyString => true
  | String c r => isASCII c && allASCII r
  end.

(** A blank line is an empty line or one made of white space only. *)
Definition blankLine (l : string) : bool := allSpace l.

(** A non-empty text has no blank line when none of its lines is blank;
    the empty text has no line at all. *)
Definition noBlankLine (s : string) : Prop :=
  s ≠ "" → Forall (λ l, blankLine l = false) (splitLines s).

Fixpoint lastChar (s : string) : option ascii :=
  match s with
  | EmptyString => None
  | String c EmptyString => Some c
  | String _ r => lastChar r
  end.

Definition noTrailingNewline (s : string) : Prop := lastChar s ≠ Some nl.

(** [strings.HasSuffix] and [strings.Contains]. *)
Definition HasSuffix (s suffix : string) : bool :=
  let n := String.length s in
  let m := String.length suffix in
  (m <=? n)%nat && String.eqb (substring (n - m) m s) suffix.

Fixpoint Contains (s sub : string) : bool :=
  String.prefix sub s ||
  match s with
  | String _ r => Contains r sub
  | EmptyString => false
  end.

End Text.

(** ** PEM: [encoding/pem.EncodeToMemory] for a block without headers *)

Module PEM.
Import Text.

Record Block := { Type_ : string; Bytes : string }.

(** [base64.StdEncoding]'s alphabet. *)
Definition encodeStd : string :=
  "ABCDEFGHIJKLMNOPQRSTUVWXYZabcdefghijklmnopqrstuvwxyz0123456789+/".

Definition padChar : ascii := "="%char.

(** [enc.encode[i & 0x3F]]. *)
Definition enc (i : N) : ascii :=
  match String.get (N.to_nat (N.land i 63)) encodeStd with
  | Some c => c
  | None => padChar
  end.

Definition byteN (c : ascii) : N := N_of_ascii c.

(** [base64.StdEncoding.Encode]: three bytes give four characters, a
    remainder of one or two bytes is padded with [=]. *)
Fixpoint base64 (src : string) : string :=
  match src with
  | String a (String b (String c rest)) =>
      let val := N.lor (N.lor (N.shiftl (byteN a) 16) (N.shiftl (byteN b) 8)) (byteN c) in
      String (enc (N.shiftr val 18))
        (String (enc (N.shiftr val 12))
           (String (enc (N.shiftr val 6))
              (String (enc val) (base64 rest))))
  | String a (String b EmptyString) =>
      let val := N.lor (N.shiftl (byteN a) 16) (N.shiftl (byteN b) 8) in
      String (enc (N.shiftr val 18))
        (String (enc (N.shiftr val 12))
           (String (enc (N.shiftr val 6))
              (String padChar EmptyString)))
  | String a EmptyString =>
      let val := N.shiftl (byteN a) 16 in
      String (enc (N.shiftr val 18))
        (String (enc (N.shiftr val 12))
           (String padChar (String padChar EmptyString)))
  | EmptyString => EmptyString
  end.

Definition pemLineLength : nat := 64.

(** The [lineBreaker] writer: a line feed after every 64 characters and,
    on [Close], after a last partial line.  [used] is the number of
    characters already on the current line. *)
Fixpoint lineBreaker (used : nat) (s : string) : string :=
  match s with
  | EmptyString => if (used =? 0)%nat then "" else String nl ""
  | String c r =>
      if (S used =? pemLineLength)%nat
      then String c (String nl (lineBreaker 0 r))
      else String c (lineBreaker (S used) r)
  end.

(** [pem.EncodeToMemory(&block)] with [block.Headers] empty. *)
Definition EncodeToMemory (b : Block) : string :=
  "-----BEGIN " +:+ Type_ b +:+ "-----" +:+ String nl "" +:+
  lineBreaker 0 (base64 (Bytes b)) +:+
  "-----END " +:+ Type_ b +:+ "-----" +:+ String nl "".

End PEM.

(** ** The SDK's response and error values *)

(** Go's [error] values, by the dynamic types the handlers switch on:
    [errutil.UserError], [errutil.InternalError], and any other error. *)
Inductive error :=
| UserError (msg : string)
| InternalError (msg : string)
| OtherError (msg : string).

(** [err.Error()]. *)
Definition errorText (e : error) : string :=
  match e with
  | UserError m | InternalError m | OtherError m => m
  end.

Definition isUserError (e : error) : bool :=
  match e with UserError _ => true | _ => false end.

Definition Time := Z.

(** The dynamically typed values stored in [Response.Data]. *)
#[warnings="-register-all"] Inductive value :=
| VString (s : string)
| VBytes (b : string)
| VInt (n : Z)
| VTime (t : Time)
| VStrings (l : list string)
| VMap (m : gmap string value).

Record Response := {
  Data : gmap string value;
  Headers : gmap string (list string)
}.

Definition mkResponse (d : gmap string value) : Response :=
  {| Data := d; Headers := ∅ |}.

Definition setData (r : Response) (k : string) (v : value) : Response :=
  {| Data := <[k := v]> (Data r); Headers := Headers r |}.

(** Keys of package [logical] for raw HTTP responses. *)
Definition HTTPContentType : string := "http_content_type".
Definition HTTPRawBody : string := "http_raw_body".
Definition HTTPStatusCode : string := "http_status_code".

(** Modelled from the spec: the error envelope of structured endpoints
    (section 6); [logical.ErrorResponse] is a function of the SDK: a
    response whose data is the single key [error]. *)
Definition ErrorResponse (text : string) : Response :=
  mkResponse {[ "error" := VString text ]}.

(** Modelled from the spec: the test for the error envelope,
    [Response.IsError] of the SDK: the data holds only [error], or only
    [error] and [data]. *)
Definition IsError (r : option Response) : bool :=
  match r with
  | None => false
  | Some r =>
      ((size (Data r) =? 1)%nat
       || (bool_decide (is_Some (Data r !! "data")) && (size (Data r) =? 2)%nat))
      && bool_decide (is_Some (Data r !! "error"))
  end.

(** Modelled from the spec: the listing envelope of section 6, a sequence
    of keys and a per-key metadata map; [logical.ListResponse] and
    [logical.ListResponseWithInfo] of the SDK. *)
Definition ListResponse (keys : list string) : Response :=
  mkResponse (if (length keys =? 0)%nat then ∅ else {[ "keys" := VStrings keys ]}).

Definition ListResponseWithInfo (keys : list string) (keyInfo : gmap string value) : Response :=
  let resp := ListResponse keys in
  let keyInfoData :=
    foldl (λ acc key, match keyInfo !! key with
                      | Some val => <[key := val]> acc
                      | None => acc
                      end) (∅ : gmap string value) keys in
  if (0 <? size keyInfoData)%nat then setData resp "key_info" (VMap keyInfoData) else resp.

(** ** Storage, certificates and the backend environment *)

Record StorageEntry := { Key : string; Value : string }.

(** [logical.Storage] as seen by the listing: [ListPage] and [Get]. *)
Record StorageView := {
  ListPage : string → string → Z → error + list string;
  Get : string → error + option StorageEntry
}.

(** [req.Storage]; [BeginReadOnlyTx] is present exactly when the storage
    implements [logical.TransactionalStorage]. *)
Record Storage := {
  plain : StorageView;
  BeginReadOnlyTx : option (error + StorageView)
}.

Record FieldData := { serial_ : string; after_ : string; limit_ : Z }.

Record Request := { Path : string; ReqStorage : Storage }.

Inductive ifModifiedReqType := ifModifiedUnknown | ifModifiedCA | ifModifiedCRL | ifModifiedDeltaCRL.

Record IfModifiedSinceHelper := {
  req : Request;
  reqType : ifModifiedReqType;
  issuerRef : string
}.

Record CertBlock := { BlockBytes : string }.

(** [certutil.CAInfoBundle]: the raw CA certificate and the result of
    [GetFullChain()]. *)
Record CAInfoBundle := {
  CertificateRaw : string;
  GetFullChain : list CertBlock
}.

Inductive issuerUsage := ReadOnlyUsage | IssuanceUsage | CRLSigningUsage.

Record revocationInfo := {
  CertificateBytes : string;
  RevocationTime : Z;
  RevocationTimeUTC : Time;
  CertificateIssuer : string
}.

(** [time.Time.IsZero]. *)
Definition IsZero (t : Time) : bool := t =? 0.

Inductive PublicKey :=
| RSAPublicKey (size : Z)
| ECDSAPublicKey (bitSize : Z)
| Ed25519PublicKey
| UnknownPublicKey.

(** The fields of [x509.Certificate] the detailed listing reads. *)
Record Certificate := {
  SubjectCommonName : string;
  IssuerString : string;
  CertPublicKey : PublicKey;
  NotAfter : Time;
  NotBefore : Time;
  DNSNames : list string
}.

(** What the handlers call outside [path_fetch.go].  A Go result
    [(v, err)] whose value is only read when [err == nil] is a sum. *)
Record Backend := {
  (** [sendNotModifiedResponseIfNecessary(helper, sc, resp)]: the
      response as the helper leaves it, and its result [(ret, err)] *)
  sendNotModifiedResponseIfNecessary :
    IfModifiedSinceHelper → Response → Response * (bool * option error);
  fetchCAInfo : string → issuerUsage → error + CAInfoBundle;
  fetchCertBySerial : string → string → error + option StorageEntry;
  DecodeJSON : StorageEntry → error + revocationInfo;
  ParseCertificate : string → error + Certificate;
  denormalizeSerial : string → string;
  formatRFC3339Nano : Time → string;
  LoggerIsWarn : bool;
  defaultRef : string;
  legacyCRLPath : string;
  deltaCRLPath : string
}.

Inductive logEntry := Warn (msg : string) (err : error).

(** What a handler hands back: [(response, retErr)] and the log lines it
    wrote. *)
Record Outcome := {
  response : option Response;
  retErr : option error;
  logged : list logEntry
}.

(** ** [pathFetchRead] *)

Module Fetch.
Import Text PEM.

(** The handler's local variables as they stand at the label [reply]. *)
Record replyState := atReply {
  st_response : option Response;
  st_retErr : option error;
  st_contentType : string;
  st_certificate : string;
  st_fullChain : string;
  st_revocationTime : Z;
  st_revocationIssuerId : string;
  st_revocationTimeRfc3339 : string
}.

Definition isOneOf (p : string) (l : list string) : bool := existsb (String.eqb p) l.

Definition caPaths : list string :=
  ["ca"; "ca/pem"; "cert/ca"; "cert/ca/raw"; "cert/ca/raw/pem"].
Definition chainPaths : list string := ["ca_chain"; "cert/ca_chain"].
Definition crlPaths : list string :=
  ["crl"; "crl/pem"; "crl/delta"; "crl/delta/pem"; "cert/crl"; "cert/crl/raw";
   "cert/crl/raw/pem"; "cert/delta-crl"; "cert/delta-crl/raw"; "cert/delta-crl/raw/pem"].

Definition nonEmpty (s : string) : bool := negb (String.length s =? 0)%nat.

Definition warnRaw : string :=
  "possible error, but cannot return in raw response. Note that an empty CA probably means none was configured, and an empty CRL is possibly correct".

(** The [switch] at the label [reply]. *)
Definition reply (b : Backend) (st : replyState) : Outcome :=
  if nonEmpty (st_contentType st) then
    let resp := mkResponse (<[HTTPContentType := VString (st_contentType st)]>
                            (<[HTTPRawBody := VBytes (st_certificate st)]> ∅)) in
    let logs := match st_retErr st with
                | Some e => if LoggerIsWarn b then [Warn warnRaw e] else []
                | None => []
                end in
    let resp := if (0 <? String.length (st_certificate st))%nat
                then setData resp HTTPStatusCode (VInt 200)
                else setData resp HTTPStatusCode (VInt 204) in
    {| response := Some resp; retErr := None; logged := logs |}
  else
    match st_retErr st with
    | Some e => {| response := None; retErr := Some e; logged := [] |}
    | None =>
        match st_response st with
        | None => {| response := None; retErr := None; logged := [] |}
        | Some r =>
            if IsError (Some r) then {| response := Some r; retErr := None; logged := [] |}
            else
              let r := setData r "certificate" (VString (st_certificate st)) in
              let r := setData r "revocation_time" (VInt (st_revocationTime st)) in
              let r := setData r "revocation_time_rfc3339" (VString (st_revocationTimeRfc3339 st)) in
              let r := if negb (String.eqb (st_revocationIssuerId st) "")
                       then setData r "issuer_id" (VString (st_revocationIssuerId st)) else r in
              let r := if (0 <? String.length (st_fullChain st))%nat
                       then setData r "ca_chain" (VString (st_fullChain st)) else r in
              {| response := Some r; retErr := None; logged := [] |}
        end
    end.

(** Result of the first [switch]: either a jump to [reply] taken inside
    it, or the response together with [serial], [pemType] and
    [contentType]. *)
Inductive selection :=
| ToReply (st : replyState)
| Selected (resp : Response) (serial pemType contentType : string).

Definition gate (b : Backend) (r : Request) (ty : ifModifiedReqType) (resp : Response)
  : Response * (bool * option error) :=
  sendNotModifiedResponseIfNecessary b
    {| req := r; reqType := ty; issuerRef := defaultRef b |} resp.

(** [if err != nil || ret { retErr = err; goto reply }]: every other
    variable still has its zero value. *)
Definition gateExit (resp : Response) (err : option error) : replyState :=
  atReply (Some resp) err "" "" "" 0 "" "".

Definition selectResource (b : Backend) (r : Request) (data : FieldData) : selection :=
  let response := mkResponse ∅ in
  let p := Path r in
  if isOneOf p caPaths then
    match gate b r ifModifiedCA response with
    | (response, (ret, err)) =>
        if bool_decide (err ≠ None) || ret then ToReply (gateExit response err)
        else if isOneOf p ["ca/pem"; "cert/ca/raw/pem"]
             then Selected response "ca" "CERTIFICATE" "application/pem-certificate-chain"
        else if String.eqb p "cert/ca"
             then Selected response "ca" "CERTIFICATE" ""
        else Selected response "ca" "" "application/pkix-cert"
    end
  else if isOneOf p chainPaths then
    if String.eqb p "ca_chain"
    then Selected response "ca_chain" "" "application/pkix-cert"
    else Selected response "ca_chain" "" ""
  else if isOneOf p crlPaths then
    let isDelta := Contains p "delta" in
    let ty := if isDelta then ifModifiedDeltaCRL else ifModifiedCRL in
    match gate b r ty response with
    | (response, (ret, err)) =>
        if bool_decide (err ≠ None) || ret then ToReply (gateExit response err)
        else
          let serial := if isDelta then deltaCRLPath b else legacyCRLPath b in
          if Contains p "pem"
          then Selected response serial "X509 CRL" "application/x-pem-file"
          else if isOneOf p ["cert/crl"; "cert/delta-crl"]
               then Selected response serial "X509 CRL" ""
          else Selected response serial "" "application/pkix-crl"
    end
  else if HasSuffix p "/pem" || HasSuffix p "/raw" then
    if HasSuffix p "/pem"
    then Selected response (serial_ data) "CERTIFICATE" "application/pem-certificate-chain"
    else Selected response (serial_ data) "" "application/pkix-cert"
  else Selected response (serial_ data) "CERTIFICATE" "".

(** [[]byte(strings.TrimSpace(string(pem.EncodeToMemory(&block))))]. *)
Definition pemText (pemType bytes : string) : string :=
  TrimSpace (EncodeToMemory {| Type_ := pemType; Bytes := bytes |}).

(** The [ca_chain] loop and the final trim. *)
Definition caChainText (rawChain : list CertBlock) : string :=
  TrimSpace
    (foldl (λ chainStr ca,
              Join [chainStr; pemText "CERTIFICATE" (BlockBytes ca)] (String nl ""))
           "" rawChain).

(** From the first [switch] to the label [reply]; [inl] is the one
    [return] that does not pass through [reply]. *)
Definition resolve (b : Backend) (r : Request) (data : FieldData) : Outcome + replyState :=
  match selectResource b r data with
  | ToReply st => inr st
  | Selected response serial pemType contentType =>
      if (String.length serial =? 0)%nat then
        inr (atReply (Some (ErrorResponse "The serial number must be provided")) None
               contentType "" "" 0 "" "")
      else if String.eqb serial "ca_chain" || String.eqb serial "ca" then
        match fetchCAInfo b (defaultRef b) ReadOnlyUsage with
        | inl err =>
            if isUserError err
            then inr (atReply (Some (ErrorResponse (errorText err))) None contentType "" "" 0 "" "")
            else inr (atReply (Some response) (Some err) contentType "" "" 0 "" "")
        | inr caInfo =>
            if String.eqb serial "ca_chain" then
              let fullChain := caChainText (GetFullChain caInfo) in
              inr (atReply (Some response) None contentType fullChain fullChain 0 "" "")
            else if String.eqb serial "ca" then
              let certificate := CertificateRaw caInfo in
              let certificate := if nonEmpty pemType then pemText pemType certificate
                                 else certificate in
              inr (atReply (Some response) None contentType certificate "" 0 "" "")
            else inr (atReply (Some response) None contentType "" "" 0 "" "")
        end
      else
        match fetchCertBySerial b (Path r) serial with
        | inl funcErr =>
            if isUserError funcErr
            then inr (atReply (Some (ErrorResponse (errorText funcErr))) None contentType "" "" 0 "" "")
            else inr (atReply (Some response) (Some funcErr) contentType "" "" 0 "" "")
        | inr None => inr (atReply None None contentType "" "" 0 "" "")
        | inr (Some certEntry) =>
            let certificate := if nonEmpty pemType then pemText pemType (Value certEntry)
                               else Value certEntry in
            match fetchCertBySerial b "revoked/" serial with
            | inl funcErr =>
                if isUserError funcErr
                then inr (atReply (Some (ErrorResponse (errorText funcErr))) None
                            contentType certificate "" 0 "" "")
                else inr (atReply (Some response) (Some funcErr) contentType certificate "" 0 "" "")
            | inr None => inr (atReply (Some response) None contentType certificate "" 0 "" "")
            | inr (Some revokedEntry) =>
                match DecodeJSON b revokedEntry with
                | inl err =>
                    inl {| response :=
                             Some (ErrorResponse ("Error decoding revocation entry for serial "
                                                  +:+ serial +:+ ": " +:+ errorText err));
                           retErr := None; logged := [] |}
                | inr revInfo =>
                    let revocationTimeRfc3339 :=
                      if negb (IsZero (RevocationTimeUTC revInfo))
                      then formatRFC3339Nano b (RevocationTimeUTC revInfo) else "" in
                    inr (atReply (Some response) None contentType certificate ""
                           (RevocationTime revInfo) (CertificateIssuer revInfo)
                           revocationTimeRfc3339)
                end
            end
        end
  end.

Definition pathFetchRead (b : Backend) (r : Request) (data : FieldData) : Outcome :=
  match resolve b r data with
  | inl out => out
  | inr st => reply b st
  end.

End Fetch.

(** ** The certificate listings *)

Module Listing.

Definition keyTypeAndBits (k : PublicKey) : string * Z :=
  match k with
  | RSAPublicKey size => ("rsa", size * 8)
  | ECDSAPublicKey bitSize => ("ec", bitSize)
  | Ed25519PublicKey => ("ed25519", 256)
  | UnknownPublicKey => ("unknown", 0)
  end.

Definition certInfo (certData : Certificate) : value :=
  let dnsNames := DNSNames certData in
  let dnsNames := if (5 <? length dnsNames)%nat then take 5 dnsNames else dnsNames in
  let '(keyType, keyBits) := keyTypeAndBits (CertPublicKey certData) in
  VMap (<["common_name" := VString (SubjectCommonName certData)]>
        (<["issuer" := VString (IssuerString certData)]>
        (<["key_type" := VString keyType]>
        (<["key_bits" := VInt keyBits]>
        (<["not_after" := VTime (NotAfter certData)]>
        (<["not_before" := VTime (NotBefore certData)]>
        (<["dns_names" := VStrings dnsNames]> ∅))))))).

Definition done (r : option Response) (e : option error) : Outcome :=
  {| response := r; retErr := e; logged := [] |}.

(** The [for i := range entries] loop with its two accumulators. *)
Fixpoint listLoop (b : Backend) (st : StorageView) (entries : list string)
    (responseKeys : list string) (responseInfo : gmap string value) : Outcome :=
  match entries with
  | [] => done (Some (ListResponseWithInfo responseKeys responseInfo)) None
  | e :: rest =>
      match Get st ("certs/" +:+ e) with
      | inl err => done None (Some err)
      | inr None => done (Some (ErrorResponse ("failed to retrieve entry for " +:+ e))) None
      | inr (Some entry) =>
          let e' := denormalizeSerial b e in
          let responseKeys := (responseKeys ++ [e'])%list in
          match ParseCertificate b (Value entry) with
          | inl err =>
              done (Some (ErrorResponse ("failed to parse certificate for " +:+ e' +:+ ": "
                                         +:+ errorText err))) None
          | inr certData =>
              listLoop b st rest responseKeys (<[e' := certInfo certData]> responseInfo)
          end
      end
  end.

Definition pageLimit (limit : Z) : Z := if limit <=? 0 then -1 else limit.

(** The storage the listing reads from: a read-only transaction when the
    storage offers one, the storage itself otherwise.  (The deferred
    [Rollback] and the restoring of [req.Storage] change nothing the
    handler returns.) *)
Definition openReadOnly (s : Storage) : error + StorageView :=
  match BeginReadOnlyTx s with
  | Some (inl err) =>
      inl (OtherError ("failed to start read-only transaction: " +:+ errorText err))
  | Some (inr readOnlyTxn) => inr readOnlyTxn
  | None => inr (plain s)
  end.

Definition pathFetchCertListDetailed (b : Backend) (r : Request) (data : FieldData) : Outcome :=
  let after := after_ data in
  let limit := pageLimit (limit_ data) in
  match openReadOnly (ReqStorage r) with
  | inl err => done None (Some err)
  | inr storage =>
      match ListPage storage "certs/" after limit with
      | inl err => done None (Some err)
      | inr entries => listLoop b storage entries [] ∅
      end
  end.

Definition pathFetchCertList (b : Backend) (r : Request) (data : FieldData) : Outcome :=
  match ListPage (plain (ReqStorage r)) "certs/" (after_ data) (pageLimit (limit_ data)) with
  | inl err => done None (Some err)
  | inr entries => done (Some (ListResponse (map (denormalizeSerial b) entries))) None
  end.

End Listing.

Import Text PEM Fetch Listing.

(** ** Predicates used in the statements *)

(** A text is tight when it is not empty and trimming leaves it as it is. *)
Definition tight (s : string) : Prop :=
  s ≠ "" ∧ trimLeft s = s ∧ trimRight s = s.

(** Characters that are ASCII and not white space. *)
Definition plainChar (c : ascii) : bool := negb (asciiSpace c) && isASCII c.

Fixpoint allPlain (s : string) : bool :=
  match s with
  | EmptyString => true
  | String c r => plainChar c && allPlain r
  end.

Definition notBlank (l : string) : Prop := blankLine l = false.

(** The case of the first [switch] of [pathFetchRead] that serves a
    path. *)
Inductive pathClass := CAClass | ChainClass | CRLClass | RawSerialClass | SerialClass.

Definition classify (p : string) : pathClass :=
  if isOneOf p caPaths then CAClass
  else if isOneOf p chainPaths then ChainClass
  else if isOneOf p crlPaths then CRLClass
  else if HasSuffix p "/pem" || HasSuffix p "/raw" then RawSerialClass
  else SerialClass.

(** The resource class whose marker the conditional gate consults. *)
Definition gateClass (p : string) : option ifModifiedReqType :=
  match classify p with
  | CAClass => Some ifModifiedCA
  | CRLClass => Some (if Contains p "delta" then ifModifiedDeltaCRL else ifModifiedCRL)
  | _ => None
  end.

(** The gate lets the request through: [ret] is false and [err] is nil,
    as for a request without a precondition. *)
Definition gatePasses (b : Backend) (r : Request) : Prop :=
  ∀ ty, gateClass (Path r) = Some ty → snd (gate b r ty (mkResponse ∅)) = (false, None).

(** The paths answered with a content type: DER and PEM bodies. *)
Definition rawPath (p : string) : bool :=
  match classify p with
  | CAClass => negb (String.eqb p "cert/ca")
  | ChainClass => String.eqb p "ca_chain"
  | CRLClass => negb (isOneOf p ["cert/crl"; "cert/delta-crl"])
  | RawSerialClass => true
  | SerialClass => false
  end.

Definition statusFor (body : string) : Z :=
  if (0 <? String.length body)%nat then 200 else 204.

(** The raw response assembled at [reply]. *)
Definition rawResponse (contentType body : string) : Response :=
  mkResponse (<[HTTPStatusCode := VInt (statusFor body)]>
              (<[HTTPContentType := VString contentType]>
              (<[HTTPRawBody := VBytes body]> ∅))).

Definition warnings (b : Backend) (err : option error) : list logEntry :=
  match err with
  | Some e => if LoggerIsWarn b then [Warn warnRaw e] else []
  | None => []
  end.

(** An entry of a listing page that is read back and parses. *)
Definition entryReadable (b : Backend) (st : StorageView) (e : string) : Prop :=
  ∃ entry certData,
    Get st ("certs/" +:+ e) = inr (Some entry)
    ∧ ParseCertificate b (Value entry) = inr certData.

(** ** Sample backends, used to run the handlers *)

Module Samples.

Definition emptyView : StorageView :=
  {| ListPage := λ _ _ _, inr []; Get := λ _, inr None |}.

Definition emptyStorage : Storage := {| plain := emptyView; BeginReadOnlyTx := None |}.

Definition request (p : string) : Request := {| Path := p; ReqStorage := emptyStorage |}.

Definition fields (s : string) : FieldData := {| serial_ := s; after_ := ""; limit_ := 0 |}.

Fixpoint lookupIn {A} (k : string) (l : list (string * A)) : option A :=
  match l with
  | [] => None
  | (k', v) :: rest => if String.eqb k k' then Some v else lookupIn k rest
  end.

Fixpoint hyphensToColons (s : string) : string :=
  match s with
  | EmptyString => EmptyString
  | String c r => String (if Ascii.eqb c "-" then ":"%char else c) (hyphensToColons r)
  end.

(** A toy certificate parser: stored bytes starting with [0] parse. *)
Definition toyParse (bytes : string) : error + Certificate :=
  match bytes with
  | String "0" cn =>
      inr {| SubjectCommonName := cn; IssuerString := "CN=root";
             CertPublicKey := Ed25519PublicKey;
             NotAfter := 2000000000; NotBefore := 1700000000; DNSNames := [cn] |}
  | _ => inl (OtherError "x509: malformed certificate")
  end.

(** A toy decoder of revocation entries, by table. *)
Definition toyDecode (table : list (string * revocationInfo)) (e : StorageEntry)
  : error + revocationInfo :=
  match lookupIn (Value e) table with
  | Some info => inr info
  | None => inl (OtherError "invalid character 'x' looking for beginning of value")
  end.

Definition entryOf (prefix serial : string) (bytes : option string) : option StorageEntry :=
  (λ v, {| Key := prefix +:+ serial; Value := v |}) <$> bytes.

(** A backend over tables of certificates and revocation entries; the
    look-up consults the revocation table for the [revoked/] prefix. *)
Definition backend (gateResult : bool * option error) (ca : error + CAInfoBundle)
    (certs revoked : list (string * string))
    (revTable : list (string * revocationInfo)) : Backend :=
  {| sendNotModifiedResponseIfNecessary := λ _ resp, (resp, gateResult);
     fetchCAInfo := λ _ _, ca;
     fetchCertBySerial := λ prefix serial,
       if String.prefix "revoked/" prefix
       then inr (entryOf "revoked/" serial (lookupIn serial revoked))
       else inr (entryOf "certs/" serial (lookupIn serial certs));
     DecodeJSON := toyDecode revTable;
     ParseCertificate := toyParse;
     denormalizeSerial := hyphensToColons;
     formatRFC3339Nano := λ _, "2023-11-14T22:13:20Z";
     LoggerIsWarn := true;
     defaultRef := "default";
     legacyCRLPath := "crl";
     deltaCRLPath := "delta-crl" |}.

Definition noCA : error + CAInfoBundle := inl (UserError "no CA configured").

Definition markerUnreadable : error := InternalError "error reading CRL config: storage unavailable".

Definition storageDown : error := InternalError "storage unavailable".

Definition rootBundle (chain : list string) : error + CAInfoBundle :=
  inr {| CertificateRaw := "0root"; GetFullChain := (λ x, {| BlockBytes := x |}) <$> chain |}.

Definition passes : bool * option error := (false, None).

(** A storage view over a table of entries, listing its keys in order. *)
Definition tableView (table : list (string * string)) : StorageView :=
  {| ListPage := λ _ _ _, inr (fst <$> table);
     Get := λ key, inr ((λ v, {| Key := key; Value := v |}) <$> lookupIn key
                          ((λ kv, ("certs/" +:+ fst kv, snd kv)) <$> table)) |}.

(** A page that still lists [stale] although no entry is stored under it. *)
Definition staleView (table : list (string * string)) (stale : string) : StorageView :=
  {| ListPage := λ _ _ _, inr ((fst <$> table) ++ [stale])%list;
     Get := Get (tableView table) |}.

Definition listRequest (v : StorageView) : Request :=
  {| Path := "certs/detailed"; ReqStorage := {| plain := v; BeginReadOnlyTx := Some (inr v) |} |}.

End Samples.

(** ** Further predicates: routes, resolvers, pages *)

(** The character class of the [serial] capture group of the routes
    [cert/(?P<serial>[0-9A-Fa-f-:]+)] and
    [cert/(?P<serial>[0-9A-Fa-f-:]+)/raw(/pem)?]: digits, [A-F], [a-f],
    hyphen and colon. *)
Definition serialChar (c : ascii) : bool :=
  let n := N_of_ascii c in
  ((48 <=? n) && (n <=? 57) || (65 <=? n) && (n <=? 70) || (97 <=? n) && (n <=? 102)
   || (n =? 45) || (n =? 58))%N.

Fixpoint allSerialChars (s : string) : bool :=
  match s with
  | EmptyString => true
  | String c r => serialChar c && allSerialChars r
  end.

(** A text the capture group accepts: one or more characters of the
    class. *)
Definition matchesSerial (s : string) : bool := nonEmpty s && allSerialChars s.

(** The first segment of a path: the text before its first slash. *)
Fixpoint upToSlash (x : string) : string :=
  match x with
  | EmptyString => EmptyString
  | String c r => if Ascii.eqb c "/" then EmptyString else String c (upToSlash r)
  end.

(** The backend with other look-ups in place of [fetchCAInfo],
    [fetchCertBySerial] and [DecodeJSON]. *)
Definition withResolvers (b : Backend)
    (ca : string → issuerUsage → error + CAInfoBundle)
    (certs : string → string → error + option StorageEntry)
    (decode : StorageEntry → error + revocationInfo) : Backend :=
  {| sendNotModifiedResponseIfNecessary := sendNotModifiedResponseIfNecessary b;
     fetchCAInfo := ca;
     fetchCertBySerial := certs;
     DecodeJSON := decode;
     ParseCertificate := ParseCertificate b;
     denormalizeSerial := denormalizeSerial b;
     formatRFC3339Nano := formatRFC3339Nano b;
     LoggerIsWarn := LoggerIsWarn b;
     defaultRef := defaultRef b;
     legacyCRLPath := legacyCRLPath b;
     deltaCRLPath := deltaCRLPath b |}.

(** The revocation look-up for a serial succeeds: no entry, or an entry
    that decodes. *)
Definition revocationReadable (b : Backend) (s : string) : Prop :=
  fetchCertBySerial b "revoked/" s = inr None
  ∨ ∃ revokedEntry revInfo,
      fetchCertBySerial b "revoked/" s = inr (Some revokedEntry)
      ∧ DecodeJSON b revokedEntry = inr revInfo.

(** The view that answers one page request only, for the prefix
    [certs/], and fails on every other. *)
Definition expectPage (v : StorageView) (after : string) (limit : Z) : StorageView :=
  {| ListPage := λ prefix a l,
       if String.eqb prefix "certs/" && String.eqb a after && (l =? limit)
       then ListPage v prefix a l
       else inl (OtherError "unexpected page request");
     Get := Get v |}.

(** The storage all of whose views, the read-only transaction's
    included, answer that one page request only. *)
Definition expectPageOn (s : Storage) (after : string) (limit : Z) : Storage :=
  {| plain := expectPage (plain s) after limit;
     BeginReadOnlyTx :=
       (λ started, match started with
                   | inl err => inl err
                   | inr txn => inr (expectPage txn after limit)
                   end) <$> BeginReadOnlyTx s |}.

Definition withLimit (data : FieldData) (limit : Z) : FieldData :=
  {| serial_ := serial_ data; after_ := after_ data; limit_ := limit |}.

(** The request with another storage. *)
Definition onStorage (r : Request) (s : Storage) : Request :=
  {| Path := Path r; ReqStorage := s |}.

(** The certificate an entry of a page parses to, when it is read back
    and parses. *)
Definition parsedEntry (b : Backend) (st : StorageView) (e : string) : option Certificate :=
  match Get st ("certs/" +:+ e) with
  | inr (Some entry) =>
      match ParseCertificate b (Value entry) with
      | inr certData => Some certData
      | inl _ => None
      end
  | _ => None
  end.

(** The metadata map the loop of the detailed listing has built after a
    run of entries that all parse: one insertion per entry, under its
    display form. *)
Definition infoAfter (b : Backend) (st : StorageView) (entries : list string)
    (info : gmap string value) : gmap string value :=
  foldl (λ acc e, match parsedEntry b st e with
                  | Some certData => <[denormalizeSerial b e := certInfo certData]> acc
                  | None => acc
                  end) info entries.

(** A storage view whose [Get] fails on one key. *)
Definition failingView (table : list (string * string)) (bad : string) (err : error)
  : StorageView :=
  {| ListPage := ListPage (Samples.tableView table);
     Get := λ key, if String.eqb key ("certs/" +:+ bad) then inl err
                   else Get (Samples.tableView table) key |}.


(** ** Facts about texts *)

Section TextFacts.

(** stdpp never unfolds [String.append] under [simpl]; these two equations
    are its defining clauses. *)
Lemma sapp_cons (c : ascii) (a b : string) : String c a +:+ b = String c (a +:+ b).
Proof. reflexivity. Qed.

Lemma sapp_nil (b : string) : "" +:+ b = b.
Proof. reflexivity. Qed.

Lemma sapp_assoc (a b c : string) : (a +:+ b) +:+ c = a +:+ b +:+ c.
Proof.
  induction a as [|x a IH]; [done |].
  rewrite !sapp_cons. by f_equal.
Qed.

Lemma sapp_empty_inv (a b : string) : a +:+ b = "" → a = "" ∧ b = "".
Proof. destruct a; [done |]. rewrite sapp_cons. discriminate. Qed.

Lemma splitLines_not_nil (s : string) : splitLines s ≠ [].
Proof.
  induction s as [|c r IH]; simpl; [done |].
  destruct (Ascii.eqb c nl); [done |].
  destruct (splitLines r); done.
Qed.

Lemma splitLines_app_nl (a b : string) :
  splitLines (a +:+ String nl b) = (splitLines a ++ splitLines b)%list.
Proof.
  induction a as [|c r IH]; [done |].
  rewrite sapp_cons. simpl.
  rewrite IH. destruct (Ascii.eqb c nl); [done |].
  pose proof (splitLines_not_nil r) as Hr.
  destruct (splitLines r); [done | reflexivity].
Qed.

Lemma allSpace_trimRight (w : string) : allSpace w = true → trimRight w = "".
Proof.
  induction w as [|c w IH]; simpl; [done |].
  intros [Hc Hw]%andb_prop. rewrite (IH Hw), Hc. done.
Qed.

Lemma trimRight_app (a b : string) :
  trimRight b ≠ "" → trimRight (a +:+ b) = a +:+ trimRight b.
Proof.
  intros Hb. induction a as [|c a IH]; [done |].
  rewrite !sapp_cons. simpl.
  rewrite IH. destruct (a +:+ trimRight b) eqn:E; [| done].
  apply sapp_empty_inv in E as [_ E]. done.
Qed.

Lemma trimRight_app_nonempty (a b : string) :
  trimRight b ≠ "" → trimRight (a +:+ b) ≠ "".
Proof.
  intros Hb. rewrite trimRight_app by done.
  intros [_ E]%sapp_empty_inv. done.
Qed.

Lemma tight_TrimSpace (s : string) : tight s → TrimSpace s = s.
Proof. intros (_ & Hl & Hr). unfold TrimSpace. by rewrite Hl. Qed.

Lemma trimLeft_length (s : string) : (String.length (trimLeft s) ≤ String.length s)%nat.
Proof.
  induction s as [|d s IH]; simpl; [lia |].
  destruct (asciiSpace d); simpl; lia.
Qed.

Lemma trimLeft_fixed_app (a x : string) :
  a ≠ "" → trimLeft a = a → trimLeft (a +:+ x) = a +:+ x.
Proof.
  destruct a as [|c a]; [done |]. intros _.
  rewrite sapp_cons. simpl.
  destruct (asciiSpace c) eqn:Hc; [| done].
  intros E. exfalso.
  pose proof (trimLeft_length a) as Hlen.
  rewrite E in Hlen. simpl in Hlen. lia.
Qed.

Lemma tight_join2 (a b : string) : tight a → tight b → tight (a +:+ String nl b).
Proof.
  intros (Ha & Hla & Hra) (Hb & Hlb & Hrb). repeat split.
  - intros [E _]%sapp_empty_inv. done.
  - by apply trimLeft_fixed_app.
  - assert (Hnb : trimRight (String nl b) = String nl b).
    { simpl. rewrite Hrb. destruct b; done. }
    rewrite trimRight_app; rewrite Hnb; done.
Qed.

Lemma trimRight_cons (d : ascii) (r : string) :
  trimRight (String d r) =
  match trimRight r with
  | EmptyString => if asciiSpace d then EmptyString else String d EmptyString
  | r' => String d r'
  end.
Proof. reflexivity. Qed.

Lemma tight_lastChar (s : string) (c : ascii) :
  trimRight s = s → asciiSpace c = true → lastChar s ≠ Some c.
Proof.
  induction s as [|d r IH]; [done |].
  intros Hs Hc. rewrite trimRight_cons in Hs.
  destruct r as [|d' r'].
  - simpl in *. destruct (asciiSpace d) eqn:Hd; [done |].
    intros [= ->]. congruence.
  - change (lastChar (String d (String d' r'))) with (lastChar (String d' r')).
    apply IH; [| done].
    destruct (trimRight (String d' r')) eqn:E.
    + destruct (asciiSpace d); discriminate.
    + congruence.
Qed.

Lemma Join_cons (t : string) (ts : list string) (sep : string) :
  ts ≠ [] → Join (t :: ts) sep = t +:+ sep +:+ Join ts sep.
Proof. destruct ts; done. Qed.

Lemma Join_tight (ts : list string) :
  ts ≠ [] → Forall tight ts → tight (Join ts (String nl "")).
Proof.
  induction ts as [|t ts IH]; [done |]. intros _ Hall.
  apply Forall_cons in Hall as [Ht Hts].
  destruct ts as [|t' ts']; [done |].
  rewrite Join_cons by done. rewrite sapp_cons, sapp_nil.
  apply tight_join2; [done |].
  apply IH; done.
Qed.


End TextFacts.

(** ** Facts about PEM text *)

Section PEMFacts.

Lemma land63_lt (i : N) : (N.land i 63 < 64)%N.
Proof.
  change 63%N with (N.ones 6). rewrite N.land_ones.
  apply N.mod_lt. done.
Qed.

Lemma enc_plain (i : N) : plainChar (enc i) = true.
Proof.
  unfold enc. pose proof (land63_lt i) as Hlt.
  assert (Hk : (N.to_nat (N.land i 63) < 64)%nat) by lia.
  revert Hk. generalize (N.to_nat (N.land i 63)). clear. intros k Hk.
  do 64 (destruct k as [|k]; [vm_compute; reflexivity |]).
  lia.
Qed.

Lemma base64_plain_step (s : string) :
  allPlain (base64 s) = true
  ∧ (∀ a, allPlain (base64 (String a s)) = true)
  ∧ (∀ a b, allPlain (base64 (String a (String b s))) = true).
Proof.
  induction s as [|c s (IH0 & IH1 & IH2)].
  - repeat split; intros; cbn [base64 allPlain]; rewrite ?enc_plain; reflexivity.
  - repeat split; intros; [apply IH1 | apply IH2 |].
    cbn [base64 allPlain]. rewrite !enc_plain, IH0. reflexivity.
Qed.

Lemma base64_plain (s : string) : allPlain (base64 s) = true.
Proof. apply base64_plain_step. Qed.

Lemma allPlain_ascii (s : string) : allPlain s = true → allASCII s = true.
Proof.
  induction s as [|c s IH]; [done |]. cbn [allPlain allASCII].
  intros [[_ Hc]%andb_prop Hs]%andb_prop. by rewrite Hc, IH.
Qed.

Lemma allASCII_app (a c : string) :
  allASCII (a +:+ c) = allASCII a && allASCII c.
Proof.
  induction a as [|x a IH]; [done |].
  rewrite sapp_cons. cbn [allASCII]. by rewrite IH, andb_assoc.
Qed.

Lemma lineBreaker_ascii (e : string) (used : nat) :
  allASCII e = true → allASCII (lineBreaker used e) = true.
Proof.
  revert used. induction e as [|c e IH]; intros used.
  - intros _. cbn [lineBreaker]. by destruct (used =? 0)%nat.
  - cbn [allASCII lineBreaker]. intros [Hc He]%andb_prop.
    destruct (S used =? pemLineLength)%nat; cbn [allASCII]; rewrite Hc, IH; done.
Qed.

(** PEM text is pure ASCII whenever the block type is. *)
Lemma EncodeToMemory_ascii (blk : Block) :
  allASCII (Type_ blk) = true → allASCII (EncodeToMemory blk) = true.
Proof.
  intros Hty. unfold EncodeToMemory.
  rewrite !allASCII_app, Hty, lineBreaker_ascii by apply allPlain_ascii, base64_plain.
  reflexivity.
Qed.

Lemma plain_not_nl (c : ascii) : asciiSpace c = false → Ascii.eqb c nl = false.
Proof.
  intros H. destruct (Ascii.eqb_spec c nl) as [-> |]; [| done].
  vm_compute in H. discriminate.
Qed.

Lemma splitLines_push (c : ascii) (x : string) :
  asciiSpace c = false →
  Forall notBlank (tail (splitLines x)) →
  Forall notBlank (splitLines (String c x)).
Proof.
  intros Hc Hx. cbn [splitLines]. rewrite plain_not_nl by done.
  pose proof (splitLines_not_nil x) as Hne.
  destruct (splitLines x) as [|l ls]; [done |].
  apply Forall_cons. split; [| done].
  unfold notBlank, blankLine. cbn [allSpace]. by rewrite Hc.
Qed.

Lemma lineBreaker_lines (tl : string) :
  Forall notBlank (splitLines tl) →
  ∀ e, allPlain e = true →
    (∀ used c, asciiSpace c = false →
       Forall notBlank (splitLines (String c (lineBreaker used e +:+ tl))))
    ∧ Forall notBlank (splitLines (lineBreaker 0 e +:+ tl)).
Proof.
  intros Htl e. induction e as [|d r IH]; intros He.
  - split; [| done]. intros used c Hc. apply splitLines_push; [done |].
    destruct used; cbn [lineBreaker Nat.eqb].
    + rewrite sapp_nil. by apply Forall_tail.
    + rewrite sapp_cons, sapp_nil. done.
  - cbn [allPlain] in He. apply andb_prop in He as [Hd Hr].
    apply andb_prop in Hd as [Hd%negb_true_iff _].
    destruct (IH Hr) as [IH1 IH2]. split.
    + intros used c Hc. apply splitLines_push; [done |].
      cbn [lineBreaker]. destruct (S used =? pemLineLength)%nat.
      * rewrite !sapp_cons. cbn [splitLines]. rewrite plain_not_nl by done.
        change (Ascii.eqb nl nl) with true. cbn iota. done.
      * rewrite sapp_cons. apply Forall_tail, IH1. done.
    + cbn [lineBreaker]. change (1 =? pemLineLength)%nat with false. cbn iota.
      rewrite sapp_cons. by apply IH1.
Qed.

(** Side conditions of [trimRight_app]: the text under [trimRight] ends
    with a closed text on which [Hend] computes the trim. *)
Ltac layers Hend :=
  lazymatch goal with
  | |- trimRight (String nl (?x +:+ ?y)) ≠ "" =>
      apply (trimRight_app_nonempty (String nl x) y); layers Hend
  | |- trimRight (?a +:+ ?b) ≠ "" =>
      first [ rewrite Hend; discriminate | apply trimRight_app_nonempty; layers Hend ]
  | |- trimRight _ ≠ "" => rewrite Hend; discriminate
  end.

Lemma pemText_eq (ty bytes : string) :
  pemText ty bytes =
  "-----BEGIN " +:+ ty +:+ "-----" +:+
  String nl (lineBreaker 0 (base64 bytes) +:+ "-----END " +:+ ty +:+ "-----").
Proof.
  unfold pemText, TrimSpace, EncodeToMemory. cbn [Type_ Bytes].
  rewrite (trimLeft_fixed_app "-----BEGIN ") by done.
  assert (Hend : trimRight ("-----" +:+ String nl "") = "-----") by reflexivity.
  rewrite (trimRight_app "-----BEGIN ") by layers Hend.
  rewrite (trimRight_app ty) by layers Hend.
  rewrite (trimRight_app "-----") by layers Hend.
  rewrite (trimRight_app (String nl "")) by layers Hend.
  rewrite (trimRight_app (lineBreaker 0 (base64 bytes))) by layers Hend.
  rewrite (trimRight_app "-----END ") by layers Hend.
  rewrite (trimRight_app ty) by layers Hend.
  rewrite Hend. reflexivity.
Qed.

Lemma pemText_tight (ty bytes : string) : tight (pemText ty bytes).
Proof.
  rewrite pemText_eq.
  assert (Hend : trimRight "-----" = "-----") by reflexivity.
  split; [| split].
  - rewrite sapp_cons. discriminate.
  - by apply trimLeft_fixed_app.
  - rewrite (trimRight_app "-----BEGIN ") by layers Hend.
    rewrite (trimRight_app ty) by layers Hend.
    rewrite (trimRight_app "-----") by layers Hend.
    rewrite <- (sapp_cons nl (lineBreaker 0 (base64 bytes))).
    rewrite (trimRight_app (String nl (lineBreaker 0 (base64 bytes)))) by layers Hend.
    rewrite (trimRight_app "-----END ") by layers Hend.
    rewrite (trimRight_app ty) by layers Hend.
    rewrite Hend. reflexivity.
Qed.


(** The [ca_chain] loop adds a line feed and the next block to what it
    has. *)
Lemma chain_loop (chain : list CertBlock) (acc : string) :
  foldl (λ chainStr ca, Join [chainStr; pemText "CERTIFICATE" (BlockBytes ca)] (String nl ""))
        acc chain
  = match chain with
    | [] => acc
    | _ => acc +:+ String nl (Join (map (λ ca, pemText "CERTIFICATE" (BlockBytes ca)) chain)
                                   (String nl ""))
    end.
Proof.
  revert acc. induction chain as [|ca rest IH]; intros acc; [done |].
  cbn [foldl]. rewrite IH. cbn [Join]. destruct rest as [|ca' rest']; [done |].
  cbn [map]. rewrite (Join_cons _ (_ :: _)) by done.
  rewrite !sapp_assoc. reflexivity.
Qed.

Lemma caChainText_join (chain : list CertBlock) :
  caChainText chain
  = Join (map (λ ca, pemText "CERTIFICATE" (BlockBytes ca)) chain) (String nl "").
Proof.
  unfold caChainText. rewrite chain_loop.
  destruct chain as [|ca rest]; [done |].
  rewrite sapp_nil. unfold TrimSpace.
  change (trimLeft (String nl ?x)) with (trimLeft x).
  apply tight_TrimSpace, Join_tight; [done |].
  apply Forall_map, Forall_forall. intros. apply pemText_tight.
Qed.

Lemma caChainText_tight (chain : list CertBlock) :
  chain ≠ [] → tight (caChainText chain).
Proof.
  intros Hne. rewrite caChainText_join. apply Join_tight.
  - by destruct chain.
  - apply Forall_map, Forall_forall. intros. apply pemText_tight.
Qed.

End PEMFacts.

(** ** Facts about [pathFetchRead] *)

Section FetchFacts.

Context (b : Backend) (r : Request) (data : FieldData).

Lemma reply_raw (st : replyState) :
  nonEmpty (st_contentType st) = true →
  reply b st =
  {| response := Some (rawResponse (st_contentType st) (st_certificate st));
     retErr := None;
     logged := warnings b (st_retErr st) |}.
Proof.
  intros Hct. unfold reply. rewrite Hct.
  unfold rawResponse, statusFor, warnings.
  destruct (0 <? String.length (st_certificate st))%nat; reflexivity.
Qed.

Lemma rawResponse_fields (ct body : string) :
  Data (rawResponse ct body) !! HTTPContentType = Some (VString ct)
  ∧ Data (rawResponse ct body) !! HTTPRawBody = Some (VBytes body)
  ∧ Data (rawResponse ct body) !! HTTPStatusCode = Some (VInt (statusFor body))
  ∧ Data (rawResponse ct body) !! "error" = None.
Proof.
  unfold rawResponse, mkResponse, HTTPContentType, HTTPRawBody, HTTPStatusCode; cbn [Data].
  repeat split; by simplify_map_eq.
Qed.

Lemma ErrorResponse_IsError (text : string) : IsError (Some (ErrorResponse text)) = true.
Proof. reflexivity. Qed.

Lemma statusFor_cases (body : string) :
  (body ≠ "" → statusFor body = 200) ∧ (body = "" → statusFor body = 204).
Proof. unfold statusFor. destruct body; split; intros; done. Qed.

(** An error reported by the gate leaves the first [switch] at once. *)
Lemma select_gate_error (ty : ifModifiedReqType) (resp' : Response) (ret : bool) (e : error) :
  gateClass (Path r) = Some ty →
  gate b r ty (mkResponse ∅) = (resp', (ret, Some e)) →
  selectResource b r data = ToReply (gateExit resp' (Some e)).
Proof.
  unfold gateClass, classify, selectResource.
  destruct (isOneOf (Path r) caPaths).
  { intros [= <-] ->. reflexivity. }
  destruct (isOneOf (Path r) chainPaths); [done |].
  destruct (isOneOf (Path r) crlPaths).
  { intros [= <-] ->. reflexivity. }
  destruct (HasSuffix (Path r) "/pem" || HasSuffix (Path r) "/raw"); done.
Qed.

(** On a raw path that the gate lets through, the first [switch] ends
    with a content type. *)
Lemma select_raw :
  rawPath (Path r) = true → gatePasses b r →
  ∃ resp serial pemType contentType,
    selectResource b r data = Selected resp serial pemType contentType
    ∧ nonEmpty contentType = true.
Proof.
  unfold rawPath, gatePasses, gateClass, classify, selectResource.
  destruct (isOneOf (Path r) caPaths).
  { intros Hraw Hgate. specialize (Hgate _ eq_refl).
    destruct (gate b r ifModifiedCA (mkResponse ∅)) as [resp [ret err]].
    cbn in Hgate. injection Hgate as -> ->. cbn [bool_decide orb].
    rewrite bool_decide_eq_false_2 by (by intros ?). cbn [orb].
    destruct (isOneOf (Path r) ["ca/pem"; "cert/ca/raw/pem"]); [by eauto 10 |].
    revert Hraw. destruct (String.eqb (Path r) "cert/ca"); [done | by eauto 10]. }
  destruct (isOneOf (Path r) chainPaths).
  { intros Hraw _. rewrite Hraw. by eauto 10. }
  destruct (isOneOf (Path r) crlPaths).
  { intros Hraw Hgate. specialize (Hgate _ eq_refl).
    destruct (gate b r _ (mkResponse ∅)) as [resp [ret err]].
    cbn in Hgate. injection Hgate as -> ->.
    rewrite bool_decide_eq_false_2 by (by intros ?). cbn [orb].
    destruct (Contains (Path r) "pem"); [by eauto 10 |].
    revert Hraw.
    destruct (isOneOf (Path r) ["cert/crl"; "cert/delta-crl"]); [done | by eauto 10]. }
  destruct (HasSuffix (Path r) "/pem" || HasSuffix (Path r) "/raw") eqn:Hs; [| done].
  intros _ _. destruct (HasSuffix (Path r) "/pem"); by eauto 10.
Qed.

Lemma select_serial :
  classify (Path r) = SerialClass →
  selectResource b r data = Selected (mkResponse ∅) (serial_ data) "CERTIFICATE" "".
Proof.
  unfold classify, selectResource.
  destruct (isOneOf (Path r) caPaths); [done |].
  destruct (isOneOf (Path r) chainPaths); [done |].
  destruct (isOneOf (Path r) crlPaths); [done |].
  destruct (HasSuffix (Path r) "/pem" || HasSuffix (Path r) "/raw"); done.
Qed.

Lemma select_raw_serial :
  classify (Path r) = RawSerialClass →
  ∃ pemType contentType,
    selectResource b r data = Selected (mkResponse ∅) (serial_ data) pemType contentType
    ∧ nonEmpty contentType = true.
Proof.
  unfold classify, selectResource.
  destruct (isOneOf (Path r) caPaths); [done |].
  destruct (isOneOf (Path r) chainPaths); [done |].
  destruct (isOneOf (Path r) crlPaths); [done |].
  destruct (HasSuffix (Path r) "/pem" || HasSuffix (Path r) "/raw"); [| done].
  intros _. destruct (HasSuffix (Path r) "/pem"); by eauto.
Qed.

(** Every jump to [reply] after the first [switch] keeps its content
    type. *)
Lemma resolve_contentType (resp : Response) (serial pemType contentType : string)
    (st : replyState) :
  selectResource b r data = Selected resp serial pemType contentType →
  resolve b r data = inr st →
  st_contentType st = contentType.
Proof.
  intros Hsel. unfold resolve. rewrite Hsel.
  repeat (match goal with
          | |- context [match ?x with _ => _ end] => destruct x
          end);
    intros [= <-]; reflexivity.
Qed.

Lemma raw_reaches_reply_typed (st : replyState) :
  rawPath (Path r) = true → gatePasses b r →
  resolve b r data = inr st →
  nonEmpty (st_contentType st) = true.
Proof.
  intros Hraw Hgate Hst.
  destruct (select_raw Hraw Hgate) as (resp & serial & pemType & ct & Hsel & Hct).
  by rewrite (resolve_contentType _ _ _ _ _ Hsel Hst).
Qed.

End FetchFacts.

Import Samples.

(** ** Scenarios *)

Example fetch_ca_der :
  pathFetchRead (backend passes (rootBundle []) [] [] []) (request "ca") (fields "")
  = {| response := Some (rawResponse "application/pkix-cert" "0root");
       retErr := None; logged := [] |}
  ∧ statusFor "0root" = 200.
Proof. split; vm_compute; reflexivity. Qed.

Example fetch_ca_pem :
  pathFetchRead (backend passes (rootBundle []) [] [] []) (request "ca/pem") (fields "")
  = {| response :=
         Some (rawResponse "application/pem-certificate-chain"
                 ("-----BEGIN CERTIFICATE-----" +:+ String nl "MHJvb3Q="
                  +:+ String nl "-----END CERTIFICATE-----"));
       retErr := None; logged := [] |}.
Proof. vm_compute. reflexivity. Qed.

Example fetch_not_modified :
  response (pathFetchRead (backend (true, None) (rootBundle []) [] [] [])
                          (request "crl") (fields ""))
  = Some (mkResponse (<["certificate" := VString ""]>
                      (<["revocation_time" := VInt 0]>
                      (<["revocation_time_rfc3339" := VString ""]> ∅)))).
Proof. vm_compute. reflexivity. Qed.

(** ** The conditional gate *)

(** C1, the claim as stated fails: on [ca] with the gate reporting a
    storage error the handler returns that error and no response, while
    the same request let through by the gate returns the CA certificate. *)
Lemma gate_fails_open_counterexample :
  gate (backend (false, Some markerUnreadable) (rootBundle []) [] [] [])
       (request "ca") ifModifiedCA (mkResponse ∅)
  = (mkResponse ∅, (false, Some markerUnreadable))
  ∧ pathFetchRead (backend (false, Some markerUnreadable) (rootBundle []) [] [] [])
                  (request "ca") (fields "")
    = {| response := None; retErr := Some markerUnreadable; logged := [] |}
  ∧ pathFetchRead (backend passes (rootBundle []) [] [] []) (request "ca") (fields "")
    = {| response := Some (rawResponse "application/pkix-cert" "0root");
         retErr := None; logged := [] |}.
Proof. repeat split; vm_compute; reflexivity. Qed.

(** C1, as amended: on every CA, CRL and delta-CRL path, an error
    reported by the conditional gate stops the resolution; the handler
    returns that error with a nil response and logs nothing. *)
Theorem gate_error_is_returned (b : Backend) (r : Request) (data : FieldData)
    (ty : ifModifiedReqType) (resp' : Response) (ret : bool) (e : error) :
  gateClass (Path r) = Some ty →
  gate b r ty (mkResponse ∅) = (resp', (ret, Some e)) →
  pathFetchRead b r data = {| response := None; retErr := Some e; logged := [] |}.
Proof.
  intros Hclass Hgate. unfold pathFetchRead, resolve.
  rewrite (select_gate_error b r data ty resp' ret e Hclass Hgate).
  reflexivity.
Qed.

Lemma gate_error_is_returned_witness :
  pathFetchRead (backend (false, Some markerUnreadable) (rootBundle []) [] [] [])
                (request "cert/delta-crl") (fields "")
  = {| response := None; retErr := Some markerUnreadable; logged := [] |}.
Proof.
  apply (gate_error_is_returned _ _ _ ifModifiedDeltaCRL (mkResponse ∅) false);
    reflexivity.
Defined.

(** ** Raw responses *)

(** C3, the claim as stated fails: on the raw path [crl/pem] an internal
    error reported by the conditional gate reaches [reply] before the
    content type is set and is returned as an error. *)
Lemma raw_error_surfaced_counterexample :
  rawPath "crl/pem" = true
  ∧ pathFetchRead (backend (false, Some markerUnreadable) noCA [] [] [])
                  (request "crl/pem") (fields "")
    = {| response := None; retErr := Some markerUnreadable; logged := [] |}.
Proof. split; vm_compute; reflexivity. Qed.

(** C3, as amended: on every raw path, once the conditional gate has let
    the request through, an internal error that reaches [reply] is not
    returned: the outcome carries no error, the response is the raw
    response whose body is the bytes resolved so far, and the warning is
    written when the logger's warn level is enabled. *)
Theorem raw_internal_error_swallowed (b : Backend) (r : Request) (data : FieldData)
    (st : replyState) (e : error) :
  rawPath (Path r) = true → gatePasses b r →
  resolve b r data = inr st → st_retErr st = Some e →
  pathFetchRead b r data
  = {| response := Some (rawResponse (st_contentType st) (st_certificate st));
       retErr := None;
       logged := if LoggerIsWarn b then [Warn warnRaw e] else [] |}
  ∧ IsError (Some (rawResponse (st_contentType st) (st_certificate st))) = false
  ∧ Data (rawResponse (st_contentType st) (st_certificate st)) !! HTTPRawBody
    = Some (VBytes (st_certificate st)).
Proof.
  intros Hraw Hgate Hst He.
  pose proof (raw_reaches_reply_typed b r data st Hraw Hgate Hst) as Hct.
  destruct (rawResponse_fields (st_contentType st) (st_certificate st))
    as (_ & Hbody & _ & Herr).
  split; [| split; [| exact Hbody]].
  - unfold pathFetchRead. rewrite Hst, (reply_raw b st Hct).
    unfold warnings. rewrite He. reflexivity.
  - unfold IsError. rewrite Herr. apply andb_false_r.
Qed.

Lemma raw_internal_error_swallowed_witness :
  pathFetchRead (backend passes (inl storageDown) [] [] []) (request "ca/pem") (fields "")
  = {| response := Some (rawResponse "application/pem-certificate-chain" "");
       retErr := None;
       logged := [Warn warnRaw storageDown] |}.
Proof.
  apply (raw_internal_error_swallowed
           (backend passes (inl storageDown) [] [] []) (request "ca/pem") (fields "")
           (atReply (Some (mkResponse ∅)) (Some storageDown)
                    "application/pem-certificate-chain" "" "" 0 "" "")
           storageDown).
  - reflexivity.
  - intros ty [= <-]. reflexivity.
  - reflexivity.
  - reflexivity.
Defined.

(** C5, the claim as stated fails: a raw fetch does not always end with
    a status 200 or 204.  On [cert/<serial>/raw] a revocation entry that
    does not decode gives an error response with no status code although
    the certificate was resolved, and on [ca/pem] an error of the
    conditional gate gives no response at all. *)
Lemma raw_status_counterexample :
  rawPath "cert/1a-2b-3c/raw" = true
  ∧ (∃ resp,
       pathFetchRead (backend passes noCA [("1a-2b-3c", "0leaf")] [("1a-2b-3c", "xx")] [])
                     (request "cert/1a-2b-3c/raw") (fields "1a-2b-3c")
       = {| response := Some resp; retErr := None; logged := [] |}
       ∧ Data resp !! HTTPStatusCode = None
       ∧ Data resp !! HTTPRawBody = None)
  ∧ rawPath "ca/pem" = true
  ∧ pathFetchRead (backend (false, Some markerUnreadable) (rootBundle []) [] [] [])
                  (request "ca/pem") (fields "")
    = {| response := None; retErr := Some markerUnreadable; logged := [] |}.
Proof.
  split; [reflexivity |]. split; [| split; [reflexivity | vm_compute; reflexivity]].
  eexists. repeat split; vm_compute; reflexivity.
Qed.

(** C5, as amended: on every raw path that the conditional gate lets
    through, whenever the resolution reaches [reply] the response
    assembled there has status 200 when the resolved body is not empty
    and 204 when it is empty, and carries no error; in particular [ca]
    with no CA configured (the CA look-up fails), the gate letting the
    request through, gives an empty body with status 204. *)
Theorem raw_status_code (b : Backend) (r : Request) (data : FieldData) :
  rawPath (Path r) = true → gatePasses b r →
  (∀ st, resolve b r data = inr st →
     ∃ resp,
       pathFetchRead b r data
       = {| response := Some resp; retErr := None; logged := warnings b (st_retErr st) |}
       ∧ Data resp !! HTTPRawBody = Some (VBytes (st_certificate st))
       ∧ (st_certificate st ≠ "" → Data resp !! HTTPStatusCode = Some (VInt 200))
       ∧ (st_certificate st = "" → Data resp !! HTTPStatusCode = Some (VInt 204)))
  ∧ (Path r = "ca" →
     ∀ e, fetchCAInfo b (defaultRef b) ReadOnlyUsage = inl e →
       ∃ resp,
         response (pathFetchRead b r data) = Some resp
         ∧ retErr (pathFetchRead b r data) = None
         ∧ Data resp !! HTTPRawBody = Some (VBytes "")
         ∧ Data resp !! HTTPStatusCode = Some (VInt 204)).
Proof.
  intros Hraw Hgate.
  assert (Hall : ∀ st, resolve b r data = inr st →
     ∃ resp,
       pathFetchRead b r data
       = {| response := Some resp; retErr := None; logged := warnings b (st_retErr st) |}
       ∧ Data resp !! HTTPRawBody = Some (VBytes (st_certificate st))
       ∧ (st_certificate st ≠ "" → Data resp !! HTTPStatusCode = Some (VInt 200))
       ∧ (st_certificate st = "" → Data resp !! HTTPStatusCode = Some (VInt 204))).
  { intros st Hst.
    pose proof (raw_reaches_reply_typed b r data st Hraw Hgate Hst) as Hct.
    destruct (rawResponse_fields (st_contentType st) (st_certificate st))
      as (_ & Hbody & Hstatus & _).
    destruct (statusFor_cases (st_certificate st)) as [H200 H204].
    exists (rawResponse (st_contentType st) (st_certificate st)).
    split; [| split; [exact Hbody | split]].
    - unfold pathFetchRead. by rewrite Hst, (reply_raw b st Hct).
    - intros Hne. by rewrite Hstatus, H200.
    - intros Hemp. by rewrite Hstatus, H204. }
  split; [exact Hall |].
  intros Hpath e Hca.
  destruct (select_raw b r data Hraw Hgate) as (resp0 & serial & pemType & ct & Hsel & Hct).
  assert (Hserial : serial = "ca").
  { revert Hsel. unfold selectResource. rewrite Hpath.
    change (isOneOf "ca" caPaths) with true. cbn iota.
    destruct (gate b r ifModifiedCA (mkResponse ∅)) as [resp1 [ret err]].
    destruct (bool_decide (err ≠ None) || ret); [done |].
    cbn. by intros [= _ <- _ _]. }
  subst serial.
  assert (Hres : ∃ resp1 err1, resolve b r data = inr (atReply resp1 err1 ct "" "" 0 "" "")).
  { unfold resolve. rewrite Hsel. cbn. rewrite Hca. destruct (isUserError e); eauto. }
  destruct Hres as (resp1 & err1 & Hres).
  destruct (Hall _ Hres) as (resp & Hout & Hbody & _ & H204).
  exists resp. rewrite Hout. cbn in *. auto.
Qed.

Lemma raw_status_code_witness :
  (∃ resp,
     pathFetchRead (backend passes (rootBundle []) [] [] []) (request "cert/ca/raw") (fields "")
     = {| response := Some resp; retErr := None; logged := [] |}
     ∧ Data resp !! HTTPStatusCode = Some (VInt 200))
  ∧ (∃ resp,
       response (pathFetchRead (backend passes noCA [] [] []) (request "ca") (fields ""))
       = Some resp
       ∧ Data resp !! HTTPStatusCode = Some (VInt 204)).
Proof.
  split.
  - destruct (raw_status_code (backend passes (rootBundle []) [] [] [])
                (request "cert/ca/raw") (fields "")) as [Hall _].
    + reflexivity.
    + intros ty [= <-]. reflexivity.
    + destruct (Hall (atReply (Some (mkResponse ∅)) None "application/pkix-cert"
                              "0root" "" 0 "" "") eq_refl)
        as (resp & Hout & _ & H200 & _).
      exists resp. split; [exact Hout | apply H200; discriminate].
  - destruct (raw_status_code (backend passes noCA [] [] []) (request "ca") (fields ""))
      as [_ Hca].
    + reflexivity.
    + intros ty [= <-]. reflexivity.
    + destruct (Hca eq_refl (UserError "no CA configured") eq_refl)
        as (resp & Hresp & _ & _ & H204).
      exists resp. split; assumption.
Defined.

(** ** The CA chain *)


Example ca_chain_of_two :
  caChainText [ {| BlockBytes := "a" |}; {| BlockBytes := "b" |} ]
  = "-----BEGIN CERTIFICATE-----" +:+ String nl "YQ==" +:+ String nl "-----END CERTIFICATE-----"
    +:+ String nl "-----BEGIN CERTIFICATE-----" +:+ String nl "Yg=="
    +:+ String nl "-----END CERTIFICATE-----".
Proof. vm_compute. reflexivity. Qed.

Example ca_chain_of_none : caChainText [] = "".
Proof. reflexivity. Qed.

Section ChainFacts.

Context (b : Backend) (r : Request) (data : FieldData).

Lemma caChainText_length (chain : list CertBlock) :
  (0 <? String.length (caChainText chain))%nat = bool_decide (chain ≠ []).
Proof.
  destruct chain as [|ca rest]; [reflexivity |].
  rewrite bool_decide_eq_true_2 by done.
  destruct (caChainText_tight (ca :: rest)) as [Hne _]; [done |].
  destruct (caChainText (ca :: rest)); done.
Qed.

Lemma IsError_fresh : IsError (Some (mkResponse ∅)) = false.
Proof. reflexivity. Qed.


End ChainFacts.




(** ** Certificates by serial *)

Section SerialFacts.

Context (b : Backend) (r : Request) (data : FieldData).

Lemma serial_not_reserved (s : string) :
  s ≠ "" → s ≠ "ca" → s ≠ "ca_chain" →
  (String.length s =? 0)%nat = false
  ∧ String.eqb s "ca_chain" || String.eqb s "ca" = false.
Proof.
  intros H0 H1 H2. split.
  - destruct s; done.
  - apply orb_false_intro; by apply String.eqb_neq.
Qed.

(** A serial-keyed request for which no certificate is stored jumps to
    [reply] with a nil response and nothing resolved. *)
Lemma resolve_absent (resp : Response) (pemType contentType : string) :
  selectResource b r data = Selected resp (serial_ data) pemType contentType →
  serial_ data ≠ "" → serial_ data ≠ "ca" → serial_ data ≠ "ca_chain" →
  fetchCertBySerial b (Path r) (serial_ data) = inr None →
  resolve b r data = inr (atReply None None contentType "" "" 0 "" "").
Proof.
  intros Hsel H0 H1 H2 Hcert.
  destruct (serial_not_reserved _ H0 H1 H2) as [Hlen Hres].
  unfold resolve. rewrite Hsel, Hlen, Hres, Hcert. reflexivity.
Qed.

(** A serial-keyed request whose revocation entry does not decode
    returns without passing through [reply]. *)
Lemma resolve_undecodable (resp : Response) (pemType contentType : string)
    (certEntry revokedEntry : StorageEntry) (err : error) :
  selectResource b r data = Selected resp (serial_ data) pemType contentType →
  serial_ data ≠ "" → serial_ data ≠ "ca" → serial_ data ≠ "ca_chain" →
  fetchCertBySerial b (Path r) (serial_ data) = inr (Some certEntry) →
  fetchCertBySerial b "revoked/" (serial_ data) = inr (Some revokedEntry) →
  DecodeJSON b revokedEntry = inl err →
  resolve b r data
  = inl {| response :=
             Some (ErrorResponse ("Error decoding revocation entry for serial "
                                  +:+ serial_ data +:+ ": " +:+ errorText err));
           retErr := None; logged := [] |}.
Proof.
  intros Hsel H0 H1 H2 Hcert Hrev Hdec.
  destruct (serial_not_reserved _ H0 H1 H2) as [Hlen Hres].
  unfold resolve. rewrite Hsel, Hlen, Hres, Hcert, Hrev, Hdec. reflexivity.
Qed.

(** The structured response built at [reply] from a fresh response. *)
Lemma reply_structured (certificate : string) (revocationTime : Z)
    (issuer rfc3339 : string) :
  ∃ resp,
    reply b (atReply (Some (mkResponse ∅)) None "" certificate "" revocationTime issuer rfc3339)
    = {| response := Some resp; retErr := None; logged := [] |}
    ∧ Data resp !! "certificate" = Some (VString certificate)
    ∧ Data resp !! "revocation_time" = Some (VInt revocationTime)
    ∧ Data resp !! "revocation_time_rfc3339" = Some (VString rfc3339)
    ∧ Data resp !! "issuer_id" = (if String.eqb issuer "" then None else Some (VString issuer))
    ∧ Data resp !! "ca_chain" = None.
Proof.
  unfold reply.
  cbn [st_contentType st_retErr st_response st_certificate st_fullChain
       st_revocationTime st_revocationIssuerId st_revocationTimeRfc3339].
  change (nonEmpty "") with false. cbn iota. rewrite IsError_fresh.
  change (0 <? String.length "")%nat with false. cbn iota.
  destruct (String.eqb issuer ""); cbn [negb];
    (eexists; split; [reflexivity |]);
    unfold setData, mkResponse; cbn [Data]; repeat split; by simplify_map_eq.
Qed.

End SerialFacts.

(** C2, the claim as stated fails: a revocation entry written without an
    issuer exists for the serial, yet the response has no [issuer_id]. *)
Lemma revoked_without_issuer_counterexample :
  ∃ entry resp,
    fetchCertBySerial
      (backend passes noCA [("1a-2b-3c", "0leaf")] [("1a-2b-3c", "rev")]
         [("rev", {| CertificateBytes := "0leaf"; RevocationTime := 1700000000;
                     RevocationTimeUTC := 0; CertificateIssuer := "" |})])
      "revoked/" "1a-2b-3c" = inr (Some entry)
    ∧ pathFetchRead
        (backend passes noCA [("1a-2b-3c", "0leaf")] [("1a-2b-3c", "rev")]
           [("rev", {| CertificateBytes := "0leaf"; RevocationTime := 1700000000;
                       RevocationTimeUTC := 0; CertificateIssuer := "" |})])
        (request "cert/1a-2b-3c") (fields "1a-2b-3c")
      = {| response := Some resp; retErr := None; logged := [] |}
    ∧ Data resp !! "revocation_time" = Some (VInt 1700000000)
    ∧ Data resp !! "issuer_id" = None.
Proof. do 2 eexists. repeat split; vm_compute; reflexivity. Qed.

(** C2, as amended: for a stored certificate with a serial other than
    [ca] and [ca_chain], the structured read returns the certificate's PEM
    text whether or not a revocation entry exists (provided the entry, if
    any, is read and decodes); [revocation_time] is the entry's time and 0
    without an entry; [issuer_id] is present exactly when an entry exists
    whose issuer is not empty.  So a non-zero time or a present issuer
    implies an entry, not conversely. *)
Theorem cert_by_serial_structured (b : Backend) (r : Request) (data : FieldData)
    (certEntry : StorageEntry) :
  classify (Path r) = SerialClass →
  serial_ data ≠ "" → serial_ data ≠ "ca" → serial_ data ≠ "ca_chain" →
  fetchCertBySerial b (Path r) (serial_ data) = inr (Some certEntry) →
  (∀ revokedEntry revInfo,
     fetchCertBySerial b "revoked/" (serial_ data) = inr (Some revokedEntry) →
     DecodeJSON b revokedEntry = inr revInfo →
     ∃ resp,
       pathFetchRead b r data = {| response := Some resp; retErr := None; logged := [] |}
       ∧ Data resp !! "certificate" = Some (VString (pemText "CERTIFICATE" (Value certEntry)))
       ∧ Data resp !! "revocation_time" = Some (VInt (RevocationTime revInfo))
       ∧ (CertificateIssuer revInfo ≠ "" →
          Data resp !! "issuer_id" = Some (VString (CertificateIssuer revInfo)))
       ∧ (CertificateIssuer revInfo = "" → Data resp !! "issuer_id" = None))
  ∧ (fetchCertBySerial b "revoked/" (serial_ data) = inr None →
     ∃ resp,
       pathFetchRead b r data = {| response := Some resp; retErr := None; logged := [] |}
       ∧ Data resp !! "certificate" = Some (VString (pemText "CERTIFICATE" (Value certEntry)))
       ∧ Data resp !! "revocation_time" = Some (VInt 0)
       ∧ Data resp !! "issuer_id" = None).
Proof.
  intros Hclass H0 H1 H2 Hcert.
  pose proof (select_serial b r data Hclass) as Hsel.
  destruct (serial_not_reserved _ H0 H1 H2) as [Hlen Hres].
  split.
  - intros revokedEntry revInfo Hrev Hdec.
    destruct (reply_structured b (pemText "CERTIFICATE" (Value certEntry))
                (RevocationTime revInfo) (CertificateIssuer revInfo)
                (if negb (IsZero (RevocationTimeUTC revInfo))
                 then formatRFC3339Nano b (RevocationTimeUTC revInfo) else ""))
      as (resp & Hout & Hc & Ht & _ & Hi & _).
    exists resp. unfold pathFetchRead, resolve.
    rewrite Hsel, Hlen, Hres, Hcert, Hrev, Hdec.
    change (nonEmpty "CERTIFICATE") with true. cbn iota.
    split; [exact Hout |]. split; [exact Hc |]. split; [exact Ht |].
    rewrite Hi. split.
    + intros Hne. apply String.eqb_neq in Hne. by rewrite Hne.
    + intros ->. reflexivity.
  - intros Hrev.
    destruct (reply_structured b (pemText "CERTIFICATE" (Value certEntry)) 0 "" "")
      as (resp & Hout & Hc & Ht & _ & Hi & _).
    exists resp. unfold pathFetchRead, resolve.
    rewrite Hsel, Hlen, Hres, Hcert, Hrev.
    change (nonEmpty "CERTIFICATE") with true. cbn iota.
    repeat split; assumption.
Qed.

Lemma cert_by_serial_structured_witness :
  (∃ resp,
     pathFetchRead
       (backend passes noCA [("1a-2b-3c", "0leaf")] [("1a-2b-3c", "rev")]
          [("rev", {| CertificateBytes := "0leaf"; RevocationTime := 1700000000;
                      RevocationTimeUTC := 1700000000; CertificateIssuer := "issuer-1" |})])
       (request "cert/1a-2b-3c") (fields "1a-2b-3c")
     = {| response := Some resp; retErr := None; logged := [] |}
     ∧ Data resp !! "certificate" = Some (VString (pemText "CERTIFICATE" "0leaf"))
     ∧ Data resp !! "issuer_id" = Some (VString "issuer-1"))
  ∧ (∃ resp,
       pathFetchRead (backend passes noCA [("1a-2b-3c", "0leaf")] [] [])
                     (request "cert/1a-2b-3c") (fields "1a-2b-3c")
       = {| response := Some resp; retErr := None; logged := [] |}
       ∧ Data resp !! "revocation_time" = Some (VInt 0)
       ∧ Data resp !! "issuer_id" = None).
Proof.
  split.
  - destruct (cert_by_serial_structured
                (backend passes noCA [("1a-2b-3c", "0leaf")] [("1a-2b-3c", "rev")]
                   [("rev", {| CertificateBytes := "0leaf"; RevocationTime := 1700000000;
                               RevocationTimeUTC := 1700000000;
                               CertificateIssuer := "issuer-1" |})])
                (request "cert/1a-2b-3c") (fields "1a-2b-3c")
                {| Key := "certs/1a-2b-3c"; Value := "0leaf" |})
      as [Hrevoked _]; [reflexivity | discriminate | discriminate | discriminate | reflexivity |].
    destruct (Hrevoked {| Key := "revoked/1a-2b-3c"; Value := "rev" |}
                {| CertificateBytes := "0leaf"; RevocationTime := 1700000000;
                   RevocationTimeUTC := 1700000000; CertificateIssuer := "issuer-1" |}
                eq_refl eq_refl)
      as (resp & Hout & Hc & _ & Hi & _).
    exists resp. split; [exact Hout |]. split; [exact Hc |]. apply Hi. discriminate.
  - destruct (cert_by_serial_structured
                (backend passes noCA [("1a-2b-3c", "0leaf")] [] [])
                (request "cert/1a-2b-3c") (fields "1a-2b-3c")
                {| Key := "certs/1a-2b-3c"; Value := "0leaf" |})
      as [_ Hvalid]; [reflexivity | discriminate | discriminate | discriminate | reflexivity |].
    destruct (Hvalid eq_refl) as (resp & Hout & _ & Ht & Hi).
    exists resp. repeat split; assumption.
Defined.

(** C6: on the serial-keyed paths (structured, raw and raw PEM), a serial
    for which no certificate entry is stored gives an empty result and
    never an error: a nil response on the structured path, a raw response
    with an empty body and status 204 on the raw paths. *)
Theorem absent_serial_is_empty (b : Backend) (r : Request) (data : FieldData) :
  classify (Path r) = SerialClass ∨ classify (Path r) = RawSerialClass →
  serial_ data ≠ "" → serial_ data ≠ "ca" → serial_ data ≠ "ca_chain" →
  fetchCertBySerial b (Path r) (serial_ data) = inr None →
  retErr (pathFetchRead b r data) = None
  ∧ logged (pathFetchRead b r data) = []
  ∧ (classify (Path r) = SerialClass → response (pathFetchRead b r data) = None)
  ∧ (classify (Path r) = RawSerialClass →
     ∃ contentType,
       response (pathFetchRead b r data) = Some (rawResponse contentType "")
       ∧ Data (rawResponse contentType "") !! HTTPRawBody = Some (VBytes "")
       ∧ Data (rawResponse contentType "") !! HTTPStatusCode = Some (VInt 204)
       ∧ IsError (Some (rawResponse contentType "")) = false).
Proof.
  intros Hclass H0 H1 H2 Hcert.
  assert (Hserial : classify (Path r) = SerialClass →
            pathFetchRead b r data = {| response := None; retErr := None; logged := [] |}).
  { intros Hc. unfold pathFetchRead.
    rewrite (resolve_absent b r data _ _ _ (select_serial b r data Hc) H0 H1 H2 Hcert).
    reflexivity. }
  assert (Hraw : classify (Path r) = RawSerialClass →
            ∃ contentType,
              pathFetchRead b r data
              = {| response := Some (rawResponse contentType ""); retErr := None;
                   logged := [] |}).
  { intros Hc.
    destruct (select_raw_serial b r data Hc) as (pemType & ct & Hsel & Hct).
    exists ct. unfold pathFetchRead.
    rewrite (resolve_absent b r data _ _ _ Hsel H0 H1 H2 Hcert).
    by rewrite reply_raw. }
  split; [| split; [| split]].
  - destruct Hclass as [Hc | Hc]; [by rewrite (Hserial Hc) |].
    destruct (Hraw Hc) as [ct ->]. reflexivity.
  - destruct Hclass as [Hc | Hc]; [by rewrite (Hserial Hc) |].
    destruct (Hraw Hc) as [ct ->]. reflexivity.
  - intros Hc. by rewrite (Hserial Hc).
  - intros Hc. destruct (Hraw Hc) as [ct Hout]. exists ct.
    destruct (rawResponse_fields ct "") as (_ & Hbody & Hstatus & Herr).
    rewrite Hout. split; [reflexivity |]. split; [exact Hbody |].
    split; [exact Hstatus |].
    unfold IsError. rewrite Herr. apply andb_false_r.
Qed.

Lemma absent_serial_is_empty_witness :
  pathFetchRead (backend passes noCA [("1a-2b-3c", "0leaf")] [] [])
                (request "cert/ff") (fields "ff")
  = {| response := None; retErr := None; logged := [] |}
  ∧ (∃ contentType,
       response (pathFetchRead (backend passes noCA [("1a-2b-3c", "0leaf")] [] [])
                               (request "cert/ff/raw/pem") (fields "ff"))
       = Some (rawResponse contentType "")).
Proof.
  split.
  - destruct (absent_serial_is_empty
                (backend passes noCA [("1a-2b-3c", "0leaf")] [] [])
                (request "cert/ff") (fields "ff"))
      as (Herr & Hlog & Hnil & _);
      [left; reflexivity | discriminate | discriminate | discriminate | reflexivity |].
    specialize (Hnil eq_refl).
    destruct (pathFetchRead _ _ _) as [resp err logs]. cbn in *. by subst.
  - destruct (absent_serial_is_empty
                (backend passes noCA [("1a-2b-3c", "0leaf")] [] [])
                (request "cert/ff/raw/pem") (fields "ff"))
      as (_ & _ & _ & Hraw);
      [right; reflexivity | discriminate | discriminate | discriminate | reflexivity |].
    destruct (Hraw eq_refl) as (ct & Hresp & _).
    exists ct. exact Hresp.
Defined.

(** C8: on every serial-keyed path, the raw ones included, when a
    revocation entry exists for the serial and does not decode, the
    handler returns at once an error response naming the serial; no raw
    response is assembled. *)
Theorem revocation_decode_error_returned (b : Backend) (r : Request) (data : FieldData)
    (certEntry revokedEntry : StorageEntry) (err : error) :
  classify (Path r) = SerialClass ∨ classify (Path r) = RawSerialClass →
  serial_ data ≠ "" → serial_ data ≠ "ca" → serial_ data ≠ "ca_chain" →
  fetchCertBySerial b (Path r) (serial_ data) = inr (Some certEntry) →
  fetchCertBySerial b "revoked/" (serial_ data) = inr (Some revokedEntry) →
  DecodeJSON b revokedEntry = inl err →
  ∃ resp,
    pathFetchRead b r data = {| response := Some resp; retErr := None; logged := [] |}
    ∧ resp = ErrorResponse ("Error decoding revocation entry for serial "
                            +:+ serial_ data +:+ ": " +:+ errorText err)
    ∧ IsError (Some resp) = true
    ∧ Data resp !! HTTPRawBody = None
    ∧ Data resp !! HTTPStatusCode = None.
Proof.
  intros Hclass H0 H1 H2 Hcert Hrev Hdec.
  eexists. split; [| split; [reflexivity | split; [reflexivity | split; reflexivity]]].
  unfold pathFetchRead.
  destruct Hclass as [Hc | Hc].
  - by rewrite (resolve_undecodable b r data _ _ _ _ _ err
                  (select_serial b r data Hc) H0 H1 H2 Hcert Hrev Hdec).
  - destruct (select_raw_serial b r data Hc) as (pemType & ct & Hsel & _).
    by rewrite (resolve_undecodable b r data _ _ _ _ _ err Hsel H0 H1 H2 Hcert Hrev Hdec).
Qed.

Lemma revocation_decode_error_returned_witness :
  ∃ resp,
    pathFetchRead (backend passes noCA [("1a-2b-3c", "0leaf")] [("1a-2b-3c", "xx")] [])
                  (request "cert/1a-2b-3c/raw") (fields "1a-2b-3c")
    = {| response := Some resp; retErr := None; logged := [] |}
    ∧ IsError (Some resp) = true.
Proof.
  destruct (revocation_decode_error_returned
              (backend passes noCA [("1a-2b-3c", "0leaf")] [("1a-2b-3c", "xx")] [])
              (request "cert/1a-2b-3c/raw") (fields "1a-2b-3c")
              {| Key := "certs/1a-2b-3c"; Value := "0leaf" |}
              {| Key := "revoked/1a-2b-3c"; Value := "xx" |}
              (OtherError "invalid character 'x' looking for beginning of value"))
    as (resp & Hout & _ & Herr & _);
    [right; reflexivity | discriminate | discriminate | discriminate
     | reflexivity | reflexivity | reflexivity |].
  exists resp. split; assumption.
Defined.

(** ** The detailed listing *)

Section ListingFacts.

Context (b : Backend) (view : StorageView).

(** Entries that are read back and parse only grow the accumulators. *)
Lemma listLoop_prefix (pre rest : list string) (keys : list string)
    (info : gmap string value) :
  Forall (entryReadable b view) pre →
  ∃ keys' info',
    listLoop b view (pre ++ rest)%list keys info = listLoop b view rest keys' info'.
Proof.
  intros Hpre. revert keys info.
  induction Hpre as [|e pre (entry & certData & Hget & Hparse) _ IH]; intros keys info.
  - by exists keys, info.
  - cbn [app listLoop]. rewrite Hget, Hparse. apply IH.
Qed.

(** The loop returns a listing only when every entry parsed. *)
Lemma listLoop_all_or_nothing (entries : list string) (k : string) (entry : StorageEntry)
    (err : error) (keys : list string) (info : gmap string value) :
  k ∈ entries →
  Get view ("certs/" +:+ k) = inr (Some entry) →
  ParseCertificate b (Value entry) = inl err →
  ∀ resp, response (listLoop b view entries keys info) = Some resp →
    ∃ text, resp = ErrorResponse text.
Proof.
  intros Hin Hget Hparse. revert keys info.
  induction entries as [|e rest IH]; intros keys info resp.
  - by apply elem_of_nil in Hin.
  - cbn [listLoop].
    destruct (Get view ("certs/" +:+ e)) as [gerr | [entry' |]] eqn:He.
    + discriminate.
    + destruct (ParseCertificate b (Value entry')) as [perr | certData] eqn:Hp.
      * intros [= <-]. by eexists.
      * apply elem_of_cons in Hin as [-> | Hin].
        -- rewrite Hget in He. injection He as <-. congruence.
        -- by apply IH.
    + intros [= <-]. by eexists.
Qed.

Lemma ErrorResponse_no_listing (text : string) :
  IsError (Some (ErrorResponse text)) = true
  ∧ Data (ErrorResponse text) !! "keys" = None
  ∧ Data (ErrorResponse text) !! "key_info" = None.
Proof. repeat split. Qed.

End ListingFacts.

(** C7: in a detailed listing, when the X.509 parsing of an entry's
    stored bytes fails, the operation returns the error response that
    names that entry's serial (in display form), and whatever the position
    of such an entry in the page, no keys and no metadata are returned. *)
Theorem detailed_listing_parse_failure (b : Backend) (r : Request) (data : FieldData)
    (view : StorageView) (pre post : list string) (k : string) (entry : StorageEntry)
    (err : error) :
  openReadOnly (ReqStorage r) = inr view →
  ListPage view "certs/" (after_ data) (pageLimit (limit_ data)) = inr (pre ++ k :: post)%list →
  Get view ("certs/" +:+ k) = inr (Some entry) →
  ParseCertificate b (Value entry) = inl err →
  (Forall (entryReadable b view) pre →
   pathFetchCertListDetailed b r data
   = {| response := Some (ErrorResponse ("failed to parse certificate for "
                                         +:+ denormalizeSerial b k +:+ ": "
                                         +:+ errorText err));
        retErr := None; logged := [] |})
  ∧ (∀ resp, response (pathFetchCertListDetailed b r data) = Some resp →
       IsError (Some resp) = true
       ∧ Data resp !! "keys" = None
       ∧ Data resp !! "key_info" = None).
Proof.
  intros Hopen Hpage Hget Hparse.
  unfold pathFetchCertListDetailed. rewrite Hopen, Hpage. split.
  - intros Hpre.
    destruct (listLoop_prefix b view pre (k :: post) [] ∅ Hpre) as (keys & info & ->).
    cbn [listLoop]. rewrite Hget, Hparse. reflexivity.
  - intros resp Hresp.
    destruct (listLoop_all_or_nothing b view (pre ++ k :: post)%list k entry err [] ∅)
      with (resp := resp) as [text ->]; try assumption.
    + apply elem_of_app. right. apply elem_of_cons. by left.
    + apply ErrorResponse_no_listing.
Qed.

Lemma detailed_listing_parse_failure_witness :
  pathFetchCertListDetailed (backend passes noCA [] [] [])
    (listRequest (tableView [("aa", "0a"); ("b-b", "xbad"); ("cc", "0c")])) (fields "")
  = {| response := Some (ErrorResponse
                           "failed to parse certificate for b:b: x509: malformed certificate");
       retErr := None; logged := [] |}.
Proof.
  destruct (detailed_listing_parse_failure (backend passes noCA [] [] [])
              (listRequest (tableView [("aa", "0a"); ("b-b", "xbad"); ("cc", "0c")]))
              (fields "")
              (tableView [("aa", "0a"); ("b-b", "xbad"); ("cc", "0c")])
              ["aa"] ["cc"] "b-b" {| Key := "certs/b-b"; Value := "xbad" |}
              (OtherError "x509: malformed certificate")
              eq_refl eq_refl eq_refl eq_refl) as [Hfirst _].
  apply Hfirst. constructor; [| constructor].
  exists {| Key := "certs/aa"; Value := "0a" |}.
  eexists. split; reflexivity.
Defined.

(** C9: in a detailed listing, when a serial of the page has no stored
    entry at the time it is read back, the operation returns the error
    response [failed to retrieve entry for <serial>]: the entry is not
    skipped and no keys or metadata are returned. *)
Theorem detailed_listing_missing_entry (b : Backend) (r : Request) (data : FieldData)
    (view : StorageView) (pre post : list string) (k : string) :
  openReadOnly (ReqStorage r) = inr view →
  ListPage view "certs/" (after_ data) (pageLimit (limit_ data)) = inr (pre ++ k :: post)%list →
  Forall (entryReadable b view) pre →
  Get view ("certs/" +:+ k) = inr None →
  ∃ resp,
    pathFetchCertListDetailed b r data
    = {| response := Some resp; retErr := None; logged := [] |}
    ∧ resp = ErrorResponse ("failed to retrieve entry for " +:+ k)
    ∧ IsError (Some resp) = true
    ∧ Data resp !! "keys" = None
    ∧ Data resp !! "key_info" = None.
Proof.
  intros Hopen Hpage Hpre Hget.
  eexists. split; [| split; [reflexivity | apply ErrorResponse_no_listing]].
  unfold pathFetchCertListDetailed. rewrite Hopen, Hpage.
  destruct (listLoop_prefix b view pre (k :: post) [] ∅ Hpre) as (keys & info & ->).
  cbn [listLoop]. rewrite Hget. reflexivity.
Qed.

Lemma detailed_listing_missing_entry_witness :
  ∃ resp,
    pathFetchCertListDetailed (backend passes noCA [] [] [])
      (listRequest (staleView [("aa", "0a")] "cc")) (fields "")
    = {| response := Some resp; retErr := None; logged := [] |}
    ∧ resp = ErrorResponse "failed to retrieve entry for cc".
Proof.
  destruct (detailed_listing_missing_entry (backend passes noCA [] [] [])
              (listRequest (staleView [("aa", "0a")] "cc")) (fields "")
              (staleView [("aa", "0a")] "cc") ["aa"] [] "cc" eq_refl eq_refl)
    as (resp & Hout & Hresp & _).
  - constructor; [| constructor].
    exists {| Key := "certs/aa"; Value := "0a" |}.
    eexists. split; reflexivity.
  - reflexivity.
  - exists resp. split; assumption.
Defined.

(** ** Further facts about [pathFetchRead] *)

Section OutcomeFacts.

Context (b : Backend) (r : Request) (data : FieldData).

(** A jump to [reply] taken inside the first [switch] comes from the
    gate and carries no content type. *)
Lemma select_ToReply (st : replyState) :
  selectResource b r data = ToReply st →
  ∃ resp err, st = gateExit resp err.
Proof.
  unfold selectResource.
  repeat (match goal with
          | |- context [match ?x with _ => _ end] => destruct x
          end);
    intros [= <-]; eauto.
Qed.

(** The one [return] that bypasses [reply] carries an error response and
    no error. *)
Lemma resolve_inl (out : Outcome) :
  resolve b r data = inl out →
  retErr out = None ∧ logged out = [] ∧ ∃ text, response out = Some (ErrorResponse text).
Proof.
  unfold resolve.
  repeat (match goal with
          | |- context [match ?x with _ => _ end] => destruct x
          end);
    intros [= <-]; cbn; eauto.
Qed.

(** An error pending at [reply] together with a content type is never a
    user error: those are turned into error responses before. *)
Lemma resolve_pending_error (st : replyState) (e : error) :
  resolve b r data = inr st →
  st_retErr st = Some e →
  nonEmpty (st_contentType st) = true →
  isUserError e = false.
Proof.
  unfold resolve. destruct (selectResource b r data) as [st0 | resp serial pemType ct] eqn:Hsel.
  - intros [= <-] _ Hct.
    destruct (select_ToReply st0 Hsel) as (resp & err & ->). discriminate Hct.
  - repeat (match goal with
            | |- context [match ?x with _ => _ end] => destruct x eqn:?
            end);
      intros [= <-]; cbn; intros [= <-]; intros; assumption.
Qed.

Lemma reply_error (st : replyState) (e : error) :
  retErr (reply b st) = Some e →
  reply b st = {| response := None; retErr := Some e; logged := [] |}
  ∧ st_retErr st = Some e
  ∧ nonEmpty (st_contentType st) = false.
Proof.
  unfold reply.
  destruct (nonEmpty (st_contentType st)); [discriminate |].
  destruct (st_retErr st) as [e' |].
  - cbn. intros [= ->]. done.
  - destruct (st_response st) as [resp |]; [| discriminate].
    destruct (IsError (Some resp)); discriminate.
Qed.

Lemma reply_logged (st : replyState) :
  logged (reply b st) ≠ [] →
  nonEmpty (st_contentType st) = true
  ∧ LoggerIsWarn b = true
  ∧ ∃ e, st_retErr st = Some e.
Proof.
  unfold reply.
  destruct (nonEmpty (st_contentType st)).
  - cbn. destruct (st_retErr st) as [e |]; [| done].
    destruct (LoggerIsWarn b); [eauto | done].
  - destruct (st_retErr st) as [e' |]; [done |].
    destruct (st_response st) as [resp |]; [| done].
    destruct (IsError (Some resp)); done.
Qed.

End OutcomeFacts.

(** X1: [pathFetchRead] never returns a response together with an error:
    when it returns an error the response is nil and nothing was logged,
    and the error was pending at [reply] with no content type set. *)
Theorem fetch_error_excludes_response (b : Backend) (r : Request) (data : FieldData)
    (e : error) :
  retErr (pathFetchRead b r data) = Some e →
  pathFetchRead b r data = {| response := None; retErr := Some e; logged := [] |}
  ∧ ∃ st, resolve b r data = inr st
          ∧ st_retErr st = Some e
          ∧ st_contentType st = "".
Proof.
  unfold pathFetchRead.
  destruct (resolve b r data) as [out | st] eqn:Hres.
  - destruct (resolve_inl b r data out Hres) as (Herr & _). congruence.
  - intros He. destruct (reply_error b st e He) as (Hout & Hst & Hct).
    split; [exact Hout |]. exists st. repeat split; try done.
    unfold nonEmpty in Hct. destruct (st_contentType st); [done | discriminate].
Qed.

Lemma fetch_error_excludes_response_witness :
  pathFetchRead (backend passes (inl storageDown) [] [] []) (request "cert/ca") (fields "")
  = {| response := None; retErr := Some storageDown; logged := [] |}.
Proof.
  apply (fetch_error_excludes_response
           (backend passes (inl storageDown) [] [] []) (request "cert/ca") (fields "")
           storageDown).
  reflexivity.
Defined.

(** X2: [pathFetchRead] writes a log line only when it returns a raw
    response in place of a pending error: then the warn level is enabled,
    the line is the single warning carrying that error, the error is not
    a user error, and no error is returned. *)
Theorem fetch_logs_only_swallowed_errors (b : Backend) (r : Request) (data : FieldData) :
  logged (pathFetchRead b r data) ≠ [] →
  LoggerIsWarn b = true
  ∧ ∃ e contentType body,
      isUserError e = false
      ∧ pathFetchRead b r data
        = {| response := Some (rawResponse contentType body);
             retErr := None;
             logged := [Warn warnRaw e] |}.
Proof.
  unfold pathFetchRead.
  destruct (resolve b r data) as [out | st] eqn:Hres.
  - destruct (resolve_inl b r data out Hres) as (_ & Hlog & _). congruence.
  - intros Hlog. destruct (reply_logged b st Hlog) as (Hct & Hwarn & e & He).
    split; [exact Hwarn |].
    exists e, (st_contentType st), (st_certificate st).
    split; [exact (resolve_pending_error b r data st e Hres He Hct) |].
    rewrite (reply_raw b st Hct). unfold warnings. by rewrite He, Hwarn.
Qed.

Lemma fetch_logs_only_swallowed_errors_witness :
  ∃ e contentType body,
    isUserError e = false
    ∧ pathFetchRead (backend passes (inl storageDown) [] [] []) (request "ca") (fields "")
      = {| response := Some (rawResponse contentType body);
           retErr := None;
           logged := [Warn warnRaw e] |}.
Proof.
  apply (fetch_logs_only_swallowed_errors
           (backend passes (inl storageDown) [] [] []) (request "ca") (fields "")).
  discriminate.
Defined.

(** X3: with an empty serial on a serial-keyed path nothing is looked up:
    the structured path returns the error response
    [The serial number must be provided], the raw paths return an empty
    raw body with status 204; neither returns an error. *)
Theorem empty_serial_rejected (b : Backend) (r : Request) (data : FieldData) :
  serial_ data = "" →
  (classify (Path r) = SerialClass →
   pathFetchRead b r data
   = {| response := Some (ErrorResponse "The serial number must be provided");
        retErr := None; logged := [] |})
  ∧ (classify (Path r) = RawSerialClass →
     ∃ contentType,
       pathFetchRead b r data
       = {| response := Some (rawResponse contentType ""); retErr := None; logged := [] |}
       ∧ statusFor "" = 204).
Proof.
  intros Hs. split; intros Hc.
  - unfold pathFetchRead, resolve.
    rewrite (select_serial b r data Hc), Hs. reflexivity.
  - destruct (select_raw_serial b r data Hc) as (pemType & ct & Hsel & Hct).
    exists ct. split; [| reflexivity].
    unfold pathFetchRead, resolve. rewrite Hsel, Hs.
    change (String.length "" =? 0)%nat with true. cbn iota.
    by rewrite reply_raw.
Qed.

Lemma empty_serial_rejected_witness :
  pathFetchRead (backend passes noCA [("1a-2b-3c", "0leaf")] [] []) (request "cert/") (fields "")
  = {| response := Some (ErrorResponse "The serial number must be provided");
       retErr := None; logged := [] |}.
Proof.
  destruct (empty_serial_rejected
              (backend passes noCA [("1a-2b-3c", "0leaf")] [] []) (request "cert/") (fields "")
              eq_refl) as [Hstructured _].
  apply Hstructured. reflexivity.
Defined.

Section FrameFacts.

Context (b : Backend) (r : Request) (data : FieldData).

Lemma reply_withResolvers ca certs decode (st : replyState) :
  reply (withResolvers b ca certs decode) st = reply b st.
Proof. reflexivity. Qed.

(** On the CA and chain cases the first [switch] selects a reserved
    name. *)
Lemma select_reserved (resp : Response) (serial pemType contentType : string) :
  classify (Path r) = CAClass ∨ classify (Path r) = ChainClass →
  selectResource b r data = Selected resp serial pemType contentType →
  serial = "ca" ∨ serial = "ca_chain".
Proof.
  unfold classify, selectResource.
  destruct (isOneOf (Path r) caPaths).
  { intros _. destruct (gate b r ifModifiedCA (mkResponse ∅)) as [resp1 [ret err]].
    repeat (match goal with
            | |- context [if ?x then _ else _] => destruct x
            end); intros [= _ <- _ _]; by left. }
  destruct (isOneOf (Path r) chainPaths).
  { intros _. destruct (String.eqb (Path r) "ca_chain"); intros [= _ <- _ _]; by right. }
  destruct (isOneOf (Path r) crlPaths); [intros [|]; done |].
  destruct (HasSuffix (Path r) "/pem" || HasSuffix (Path r) "/raw"); intros [|]; done.
Qed.

End FrameFacts.

(** X4: on the CA and CA-chain paths the per-certificate look-up and the
    revocation entries are never consulted: the outcome is the same
    whatever [fetchCertBySerial] and [DecodeJSON] would answer. *)
Theorem ca_paths_ignore_certificate_store (b : Backend) (r : Request) (data : FieldData)
    (certs : string → string → error + option StorageEntry)
    (decode : StorageEntry → error + revocationInfo) :
  classify (Path r) = CAClass ∨ classify (Path r) = ChainClass →
  pathFetchRead (withResolvers b (fetchCAInfo b) certs decode) r data
  = pathFetchRead b r data.
Proof.
  intros Hclass. unfold pathFetchRead.
  assert (Hsel : selectResource (withResolvers b (fetchCAInfo b) certs decode) r data
                 = selectResource b r data) by reflexivity.
  unfold resolve. rewrite Hsel.
  destruct (selectResource b r data) as [st | resp serial pemType ct] eqn:Hs.
  - reflexivity.
  - destruct (select_reserved b r data resp serial pemType ct Hclass Hs) as [-> | ->];
      cbn; destruct (fetchCAInfo b (defaultRef b) ReadOnlyUsage) as [e | caInfo];
      try destruct (isUserError e); reflexivity.
Qed.

Lemma ca_paths_ignore_certificate_store_witness :
  pathFetchRead
    (withResolvers (backend passes (rootBundle ["0root"]) [] [] [])
       (fetchCAInfo (backend passes (rootBundle ["0root"]) [] [] []))
       (λ _ _, inl storageDown) (λ _, inl storageDown))
    (request "cert/ca_chain") (fields "")
  = pathFetchRead (backend passes (rootBundle ["0root"]) [] [] [])
                  (request "cert/ca_chain") (fields "").
Proof.
  apply (ca_paths_ignore_certificate_store
           (backend passes (rootBundle ["0root"]) [] [] [])
           (request "cert/ca_chain") (fields "")).
  right. reflexivity.
Defined.

(** X5: when the conditional gate answers "not modified" ([ret] true, no
    error) nothing is resolved: whatever the CA and certificate look-ups
    would answer, the handler returns no error and logs nothing, and
    unless the helper's response is an error envelope the response is the
    helper's own with an empty [certificate], a zero [revocation_time] and
    an empty [revocation_time_rfc3339] written into it, every key other
    than these three and the headers left as the helper set them. *)
Theorem not_modified_short_circuits (b : Backend) (r : Request) (data : FieldData)
    (ty : ifModifiedReqType) (resp' : Response)
    (ca : string → issuerUsage → error + CAInfoBundle)
    (certs : string → string → error + option StorageEntry)
    (decode : StorageEntry → error + revocationInfo) :
  gateClass (Path r) = Some ty →
  gate b r ty (mkResponse ∅) = (resp', (true, None)) →
  pathFetchRead (withResolvers b ca certs decode) r data = pathFetchRead b r data
  ∧ retErr (pathFetchRead b r data) = None
  ∧ logged (pathFetchRead b r data) = []
  ∧ (IsError (Some resp') = false →
     ∃ resp,
       response (pathFetchRead b r data) = Some resp
       ∧ Data resp !! "certificate" = Some (VString "")
       ∧ Data resp !! "revocation_time" = Some (VInt 0)
       ∧ Data resp !! "revocation_time_rfc3339" = Some (VString "")
       ∧ Headers resp = Headers resp'
       ∧ ∀ k, k ≠ "certificate" → k ≠ "revocation_time" →
              k ≠ "revocation_time_rfc3339" → Data resp !! k = Data resp' !! k).
Proof.
  intros Hclass Hgate.
  assert (Hsel : ∀ b', sendNotModifiedResponseIfNecessary b' = sendNotModifiedResponseIfNecessary b →
                       defaultRef b' = defaultRef b →
                       selectResource b' r data = ToReply (gateExit resp' None)).
  { intros b' Hsame Href. revert Hclass Hgate.
    unfold gateClass, classify, selectResource, gate. rewrite Hsame, Href.
    destruct (isOneOf (Path r) caPaths).
    { intros [= <-] ->. reflexivity. }
    destruct (isOneOf (Path r) chainPaths); [done |].
    destruct (isOneOf (Path r) crlPaths).
    { intros [= <-] ->. reflexivity. }
    destruct (HasSuffix (Path r) "/pem" || HasSuffix (Path r) "/raw"); done. }
  unfold pathFetchRead, resolve.
  rewrite (Hsel b eq_refl eq_refl), (Hsel (withResolvers b ca certs decode) eq_refl eq_refl).
  unfold reply, gateExit.
  cbn [st_contentType st_retErr st_response st_certificate st_fullChain
       st_revocationTime st_revocationIssuerId st_revocationTimeRfc3339].
  change (nonEmpty "") with false. cbn iota.
  split; [reflexivity |].
  destruct (IsError (Some resp')); [repeat split; done |].
  split; [reflexivity |]. split; [reflexivity |]. intros _.
  eexists. split; [reflexivity |].
  unfold setData; cbn [Data Headers negb String.eqb].
  change (0 <? String.length "")%nat with false. cbn iota. cbn [Data Headers].
  repeat split; try by simplify_map_eq.
  intros k Hk1 Hk2 Hk3.
  rewrite !lookup_insert_ne; [done | | |]; intros <-; done.
Qed.

Lemma not_modified_short_circuits_witness :
  pathFetchRead
    (withResolvers (backend (true, None) noCA [] [] [])
       (λ _ _, inl storageDown) (λ _ _, inl storageDown) (λ _, inl storageDown))
    (request "crl/delta") (fields "")
  = pathFetchRead (backend (true, None) noCA [] [] []) (request "crl/delta") (fields "")
  ∧ retErr (pathFetchRead (backend (true, None) noCA [] [] [])
                          (request "crl/delta") (fields "")) = None.
Proof.
  destruct (not_modified_short_circuits
              (backend (true, None) noCA [] [] []) (request "crl/delta") (fields "")
              ifModifiedDeltaCRL (mkResponse ∅)
              (λ _ _, inl storageDown) (λ _ _, inl storageDown) (λ _, inl storageDown)
              eq_refl eq_refl) as (Hsame & Herr & _).
  split; assumption.
Defined.

(** X6: on the structured serial path a failing look-up is classified by
    the error's type: a user error becomes an error response carrying its
    text, returned without error; any other error is returned as the
    error with a nil response.  This holds for the certificate look-up
    and, once the certificate is found, for the revocation look-up. *)
Theorem structured_lookup_errors (b : Backend) (r : Request) (data : FieldData)
    (e : error) :
  classify (Path r) = SerialClass →
  serial_ data ≠ "" → serial_ data ≠ "ca" → serial_ data ≠ "ca_chain" →
  fetchCertBySerial b (Path r) (serial_ data) = inl e
  ∨ (∃ certEntry, fetchCertBySerial b (Path r) (serial_ data) = inr (Some certEntry))
    ∧ fetchCertBySerial b "revoked/" (serial_ data) = inl e →
  pathFetchRead b r data
  = if isUserError e
    then {| response := Some (ErrorResponse (errorText e)); retErr := None; logged := [] |}
    else {| response := None; retErr := Some e; logged := [] |}.
Proof.
  intros Hclass H0 H1 H2 Hfail.
  pose proof (select_serial b r data Hclass) as Hsel.
  destruct (serial_not_reserved _ H0 H1 H2) as [Hlen Hres].
  unfold pathFetchRead, resolve. rewrite Hsel, Hlen, Hres.
  destruct Hfail as [Hcert | [[certEntry Hcert] Hrev]].
  - rewrite Hcert. destruct (isUserError e); reflexivity.
  - rewrite Hcert, Hrev. destruct (isUserError e); reflexivity.
Qed.

Lemma structured_lookup_errors_witness :
  pathFetchRead
    (withResolvers (backend passes noCA [] [] []) (λ _ _, noCA)
       (λ prefix _, if String.prefix "revoked/" prefix then inl storageDown
                    else inr (Some {| Key := "certs/ab"; Value := "0leaf" |}))
       (λ _, inl storageDown))
    (request "cert/ab") (fields "ab")
  = {| response := None; retErr := Some storageDown; logged := [] |}.
Proof.
  apply (structured_lookup_errors
           (withResolvers (backend passes noCA [] [] []) (λ _ _, noCA)
              (λ prefix _, if String.prefix "revoked/" prefix then inl storageDown
                           else inr (Some {| Key := "certs/ab"; Value := "0leaf" |}))
              (λ _, inl storageDown))
           (request "cert/ab") (fields "ab") storageDown);
    [reflexivity | discriminate | discriminate | discriminate |].
  right. split; [eexists; reflexivity | reflexivity].
Defined.

(** X7: the structured CA read [cert/ca], let through by the gate with
    the response untouched: with a CA bundle the response holds the CA
    certificate as PEM text of type [CERTIFICATE], a zero
    [revocation_time], an empty [revocation_time_rfc3339], and neither
    [issuer_id] nor [ca_chain]; a failing CA look-up is classified as on
    the serial path. *)
Theorem structured_ca_read (b : Backend) (r : Request) (data : FieldData) :
  Path r = "cert/ca" →
  gate b r ifModifiedCA (mkResponse ∅) = (mkResponse ∅, (false, None)) →
  (∀ caInfo, fetchCAInfo b (defaultRef b) ReadOnlyUsage = inr caInfo →
     ∃ resp,
       pathFetchRead b r data = {| response := Some resp; retErr := None; logged := [] |}
       ∧ Data resp !! "certificate"
         = Some (VString (pemText "CERTIFICATE" (CertificateRaw caInfo)))
       ∧ Data resp !! "revocation_time" = Some (VInt 0)
       ∧ Data resp !! "revocation_time_rfc3339" = Some (VString "")
       ∧ Data resp !! "issuer_id" = None
       ∧ Data resp !! "ca_chain" = None)
  ∧ (∀ e, fetchCAInfo b (defaultRef b) ReadOnlyUsage = inl e →
       pathFetchRead b r data
       = if isUserError e
         then {| response := Some (ErrorResponse (errorText e)); retErr := None;
                 logged := [] |}
         else {| response := None; retErr := Some e; logged := [] |}).
Proof.
  intros Hpath Hgate.
  assert (Hsel : selectResource b r data = Selected (mkResponse ∅) "ca" "CERTIFICATE" "").
  { unfold selectResource. rewrite Hpath.
    change (isOneOf "cert/ca" caPaths) with true. cbn iota.
    rewrite Hgate. reflexivity. }
  split.
  - intros caInfo Hca.
    destruct (reply_structured b (pemText "CERTIFICATE" (CertificateRaw caInfo)) 0 "" "")
      as (resp & Hout & Hc & Ht & Hrfc & Hi & Hchain).
    exists resp. unfold pathFetchRead, resolve. rewrite Hsel. cbn. rewrite Hca.
    change (nonEmpty "CERTIFICATE") with true. cbn iota.
    repeat split; assumption.
  - intros e Hca. unfold pathFetchRead, resolve. rewrite Hsel. cbn. rewrite Hca.
    destruct (isUserError e); reflexivity.
Qed.

Lemma structured_ca_read_witness :
  (∃ resp,
     pathFetchRead (backend passes (rootBundle []) [] [] []) (request "cert/ca") (fields "ca")
     = {| response := Some resp; retErr := None; logged := [] |}
     ∧ Data resp !! "certificate" = Some (VString (pemText "CERTIFICATE" "0root")))
  ∧ pathFetchRead (backend passes noCA [] [] []) (request "cert/ca") (fields "ca")
    = {| response := Some (ErrorResponse "no CA configured"); retErr := None; logged := [] |}.
Proof.
  split.
  - destruct (structured_ca_read (backend passes (rootBundle []) [] [] [])
                (request "cert/ca") (fields "ca") eq_refl eq_refl) as [Hok _].
    destruct (Hok {| CertificateRaw := "0root"; GetFullChain := [] |} eq_refl)
      as (resp & Hout & Hc & _).
    exists resp. split; assumption.
  - destruct (structured_ca_read (backend passes noCA [] [] [])
                (request "cert/ca") (fields "ca") eq_refl eq_refl) as [_ Hfail].
    apply (Hfail (UserError "no CA configured")). reflexivity.
Defined.

(** X8: the raw serial paths return the stored certificate whether or not
    it is revoked, with no revocation data: [cert/<serial>/raw] answers
    with the stored bytes verbatim as [application/pkix-cert], a path
    ending in [/pem] with their PEM text as
    [application/pem-certificate-chain], which is never empty. *)
Theorem raw_serial_body (b : Backend) (r : Request) (data : FieldData)
    (certEntry : StorageEntry) :
  classify (Path r) = RawSerialClass →
  serial_ data ≠ "" → serial_ data ≠ "ca" → serial_ data ≠ "ca_chain" →
  fetchCertBySerial b (Path r) (serial_ data) = inr (Some certEntry) →
  revocationReadable b (serial_ data) →
  (HasSuffix (Path r) "/pem" = false →
   pathFetchRead b r data
   = {| response := Some (rawResponse "application/pkix-cert" (Value certEntry));
        retErr := None; logged := [] |})
  ∧ (HasSuffix (Path r) "/pem" = true →
     pathFetchRead b r data
     = {| response := Some (rawResponse "application/pem-certificate-chain"
                              (pemText "CERTIFICATE" (Value certEntry)));
          retErr := None; logged := [] |}
     ∧ statusFor (pemText "CERTIFICATE" (Value certEntry)) = 200).
Proof.
  intros Hclass H0 H1 H2 Hcert Hrev.
  destruct (serial_not_reserved _ H0 H1 H2) as [Hlen Hres].
  assert (Hsel : selectResource b r data
                 = if HasSuffix (Path r) "/pem"
                   then Selected (mkResponse ∅) (serial_ data) "CERTIFICATE"
                          "application/pem-certificate-chain"
                   else Selected (mkResponse ∅) (serial_ data) "" "application/pkix-cert").
  { revert Hclass. unfold classify, selectResource.
    destruct (isOneOf (Path r) caPaths); [done |].
    destruct (isOneOf (Path r) chainPaths); [done |].
    destruct (isOneOf (Path r) crlPaths); [done |].
    destruct (HasSuffix (Path r) "/pem" || HasSuffix (Path r) "/raw"); done. }
  split; intros Hpem; rewrite Hpem in Hsel.
  - unfold pathFetchRead, resolve. rewrite Hsel, Hlen, Hres, Hcert.
    change (nonEmpty "") with false. cbn iota.
    destruct Hrev as [-> | (re & info & -> & ->)]; by rewrite reply_raw.
  - split.
    + unfold pathFetchRead, resolve. rewrite Hsel, Hlen, Hres, Hcert.
      change (nonEmpty "CERTIFICATE") with true. cbn iota.
      destruct Hrev as [-> | (re & info & -> & ->)]; by rewrite reply_raw.
    + apply statusFor_cases. apply pemText_tight.
Qed.

Lemma raw_serial_body_witness :
  pathFetchRead
    (backend passes noCA [("1a-2b-3c", "0leaf")] [("1a-2b-3c", "rev")]
       [("rev", {| CertificateBytes := "0leaf"; RevocationTime := 1700000000;
                   RevocationTimeUTC := 1700000000; CertificateIssuer := "issuer-1" |})])
    (request "cert/1a-2b-3c/raw") (fields "1a-2b-3c")
  = {| response := Some (rawResponse "application/pkix-cert" "0leaf");
       retErr := None; logged := [] |}.
Proof.
  destruct (raw_serial_body
              (backend passes noCA [("1a-2b-3c", "0leaf")] [("1a-2b-3c", "rev")]
                 [("rev", {| CertificateBytes := "0leaf"; RevocationTime := 1700000000;
                             RevocationTimeUTC := 1700000000;
                             CertificateIssuer := "issuer-1" |})])
              (request "cert/1a-2b-3c/raw") (fields "1a-2b-3c")
              {| Key := "certs/1a-2b-3c"; Value := "0leaf" |})
    as [Hder _];
    [reflexivity | discriminate | discriminate | discriminate | reflexivity | |].
  - right. do 2 eexists. split; reflexivity.
  - apply Hder. reflexivity.
Defined.

(** X9: the structured read reports [revocation_time_rfc3339] from the
    entry's UTC time alone: the formatted time when that time is set, the
    empty text when it is zero (whatever the epoch field holds) and when
    no entry exists. *)
Theorem revocation_time_rfc3339_field (b : Backend) (r : Request) (data : FieldData)
    (certEntry : StorageEntry) :
  classify (Path r) = SerialClass →
  serial_ data ≠ "" → serial_ data ≠ "ca" → serial_ data ≠ "ca_chain" →
  fetchCertBySerial b (Path r) (serial_ data) = inr (Some certEntry) →
  (∀ revokedEntry revInfo,
     fetchCertBySerial b "revoked/" (serial_ data) = inr (Some revokedEntry) →
     DecodeJSON b revokedEntry = inr revInfo →
     ∃ resp,
       response (pathFetchRead b r data) = Some resp
       ∧ (RevocationTimeUTC revInfo = 0 →
          Data resp !! "revocation_time_rfc3339" = Some (VString ""))
       ∧ (RevocationTimeUTC revInfo ≠ 0 →
          Data resp !! "revocation_time_rfc3339"
          = Some (VString (formatRFC3339Nano b (RevocationTimeUTC revInfo)))))
  ∧ (fetchCertBySerial b "revoked/" (serial_ data) = inr None →
     ∃ resp,
       response (pathFetchRead b r data) = Some resp
       ∧ Data resp !! "revocation_time_rfc3339" = Some (VString "")).
Proof.
  intros Hclass H0 H1 H2 Hcert.
  pose proof (select_serial b r data Hclass) as Hsel.
  destruct (serial_not_reserved _ H0 H1 H2) as [Hlen Hres].
  split.
  - intros revokedEntry revInfo Hrev Hdec.
    destruct (reply_structured b (pemText "CERTIFICATE" (Value certEntry))
                (RevocationTime revInfo) (CertificateIssuer revInfo)
                (if negb (IsZero (RevocationTimeUTC revInfo))
                 then formatRFC3339Nano b (RevocationTimeUTC revInfo) else ""))
      as (resp & Hout & _ & _ & Hrfc & _).
    exists resp. unfold pathFetchRead, resolve.
    rewrite Hsel, Hlen, Hres, Hcert, Hrev, Hdec.
    change (nonEmpty "CERTIFICATE") with true. cbn iota.
    rewrite Hout. split; [reflexivity |]. rewrite Hrfc. unfold IsZero. split.
    + intros ->. reflexivity.
    + intros Hne. apply Z.eqb_neq in Hne. by rewrite Hne.
  - intros Hrev.
    destruct (reply_structured b (pemText "CERTIFICATE" (Value certEntry)) 0 "" "")
      as (resp & Hout & _ & _ & Hrfc & _).
    exists resp. unfold pathFetchRead, resolve.
    rewrite Hsel, Hlen, Hres, Hcert, Hrev.
    change (nonEmpty "CERTIFICATE") with true. cbn iota.
    rewrite Hout. split; [reflexivity | exact Hrfc].
Qed.

Lemma revocation_time_rfc3339_field_witness :
  ∃ resp,
    response (pathFetchRead
                (backend passes noCA [("1a-2b-3c", "0leaf")] [("1a-2b-3c", "rev")]
                   [("rev", {| CertificateBytes := "0leaf"; RevocationTime := 1700000000;
                               RevocationTimeUTC := 0; CertificateIssuer := "issuer-1" |})])
                (request "cert/1a-2b-3c") (fields "1a-2b-3c")) = Some resp
    ∧ Data resp !! "revocation_time_rfc3339" = Some (VString "").
Proof.
  destruct (revocation_time_rfc3339_field
              (backend passes noCA [("1a-2b-3c", "0leaf")] [("1a-2b-3c", "rev")]
                 [("rev", {| CertificateBytes := "0leaf"; RevocationTime := 1700000000;
                             RevocationTimeUTC := 0; CertificateIssuer := "issuer-1" |})])
              (request "cert/1a-2b-3c") (fields "1a-2b-3c")
              {| Key := "certs/1a-2b-3c"; Value := "0leaf" |})
    as [Hrevoked _]; [reflexivity | discriminate | discriminate | discriminate | reflexivity |].
  destruct (Hrevoked {| Key := "revoked/1a-2b-3c"; Value := "rev" |}
              {| CertificateBytes := "0leaf"; RevocationTime := 1700000000;
                 RevocationTimeUTC := 0; CertificateIssuer := "issuer-1" |}
              eq_refl eq_refl) as (resp & Hresp & Hzero & _).
  exists resp. split; [exact Hresp | apply Hzero; reflexivity].
Defined.

Section DecodeExit.

Context (b : Backend) (r : Request) (data : FieldData).

(** The [return] that bypasses [reply] is taken only for a revocation
    entry that was found and does not decode, and it names the serial
    that was looked up. *)
Lemma resolve_inl_decode (out : Outcome) :
  resolve b r data = inl out →
  ∃ serial revokedEntry err,
    fetchCertBySerial b "revoked/" serial = inr (Some revokedEntry)
    ∧ DecodeJSON b revokedEntry = inl err
    ∧ out = {| response :=
                 Some (ErrorResponse ("Error decoding revocation entry for serial "
                                      +:+ serial +:+ ": " +:+ errorText err));
               retErr := None; logged := [] |}.
Proof.
  unfold resolve.
  destruct (selectResource b r data) as [st | resp serial pemType ct]; [discriminate |].
  repeat (match goal with
          | |- context [match ?x with _ => _ end] => destruct x eqn:?
          end);
    intros [= <-]; eauto 10.
Qed.

End DecodeExit.

(** X10: on every raw path that the gate lets through the handler always
    returns a response and never an error; the response is either the raw
    response, whose data holds exactly the content type, the body and the
    status code (no certificate or revocation field), or, only when a
    revocation entry was found that does not decode, the error response
    naming the serial looked up and the decoding error. *)
Theorem raw_response_shape (b : Backend) (r : Request) (data : FieldData) :
  rawPath (Path r) = true → gatePasses b r →
  retErr (pathFetchRead b r data) = None
  ∧ ∃ resp,
      response (pathFetchRead b r data) = Some resp
      ∧ ((∃ contentType body,
            resp = rawResponse contentType body
            ∧ nonEmpty contentType = true
            ∧ dom (Data resp) = {[ HTTPContentType; HTTPRawBody; HTTPStatusCode ]})
         ∨ (∃ serial revokedEntry err,
              fetchCertBySerial b "revoked/" serial = inr (Some revokedEntry)
              ∧ DecodeJSON b revokedEntry = inl err
              ∧ resp = ErrorResponse ("Error decoding revocation entry for serial "
                                      +:+ serial +:+ ": " +:+ errorText err))).
Proof.
  intros Hraw Hgate. unfold pathFetchRead.
  destruct (resolve b r data) as [out | st] eqn:Hres.
  - destruct (resolve_inl_decode b r data out Hres) as (serial & re & err & Hrev & Hdec & ->).
    cbn [retErr response]. split; [reflexivity |].
    eexists. split; [reflexivity |]. right. by exists serial, re, err.
  - pose proof (raw_reaches_reply_typed b r data st Hraw Hgate Hres) as Hct.
    rewrite (reply_raw b st Hct). cbn [retErr response].
    split; [reflexivity |]. eexists. split; [reflexivity |].
    left. exists (st_contentType st), (st_certificate st).
    split; [reflexivity |]. split; [exact Hct |].
    unfold rawResponse, mkResponse; cbn [Data].
    rewrite !dom_insert_L, dom_empty_L. set_solver.
Qed.

Lemma raw_response_shape_witness :
  retErr (pathFetchRead (backend passes (inl storageDown) [] [] [])
                        (request "ca_chain") (fields "")) = None.
Proof.
  destruct (raw_response_shape (backend passes (inl storageDown) [] [] [])
              (request "ca_chain") (fields "")) as [Herr _].
  - reflexivity.
  - intros ty Hty. discriminate Hty.
  - exact Herr.
Defined.

Section PemShape.

Lemma pemText_lines_of (ty bytes : string) :
  Forall notBlank (splitLines ("-----BEGIN " +:+ ty +:+ "-----")) →
  Forall notBlank (splitLines ("-----END " +:+ ty +:+ "-----")) →
  Forall notBlank (splitLines (pemText ty bytes)).
Proof.
  intros Hbegin Hend. rewrite pemText_eq.
  assert (E : ∀ x, "-----BEGIN " +:+ ty +:+ "-----" +:+ String nl x
                   = ("-----BEGIN " +:+ ty +:+ "-----") +:+ String nl x).
  { intros x. by rewrite !sapp_assoc. }
  rewrite E, splitLines_app_nl. apply Forall_app. split; [exact Hbegin |].
  apply lineBreaker_lines; [exact Hend | apply base64_plain].
Qed.

End PemShape.

(** X11: the PEM text the handler builds (encode, then trim) is the BEGIN
    line, the base64 lines and the END line with no line feed after it:
    it is never empty, starts and ends without white space, and for the
    two block types the handler uses ([CERTIFICATE], [X509 CRL]) it has no
    blank line. *)
Theorem pem_text_shape (ty bytes : string) :
  pemText ty bytes
  = "-----BEGIN " +:+ ty +:+ "-----" +:+
    String nl (lineBreaker 0 (base64 bytes) +:+ "-----END " +:+ ty +:+ "-----")
  ∧ pemText ty bytes ≠ ""
  ∧ TrimSpace (pemText ty bytes) = pemText ty bytes
  ∧ noTrailingNewline (pemText ty bytes)
  ∧ noBlankLine (pemText "CERTIFICATE" bytes)
  ∧ noBlankLine (pemText "X509 CRL" bytes).
Proof.
  pose proof (pemText_tight ty bytes) as Ht.
  split; [apply pemText_eq |]. split; [apply Ht |].
  split; [by apply tight_TrimSpace |]. split; [| split].
  - apply tight_lastChar; [apply Ht | reflexivity].
  - intros _. apply pemText_lines_of; repeat constructor.
  - intros _. apply pemText_lines_of; repeat constructor.
Qed.

Section ChainComposition.

Lemma Join_app (l1 l2 : list string) (sep : string) :
  l1 ≠ [] → l2 ≠ [] →
  Join (l1 ++ l2) sep = Join l1 sep +:+ sep +:+ Join l2 sep.
Proof.
  intros H1 H2. induction l1 as [|t l1 IH]; [done |].
  destruct l1 as [|t' l1'].
  - cbn [app]. by rewrite Join_cons.
  - change ((t :: t' :: l1') ++ l2)%list with (t :: ((t' :: l1') ++ l2))%list.
    rewrite Join_cons by done. rewrite IH by done.
    rewrite (Join_cons t (t' :: l1')) by done.
    by rewrite !sapp_assoc.
Qed.

End ChainComposition.

(** X12: the chain text composes: the text of one certificate is its PEM
    text, and the text of two non-empty chains put end to end is the two
    texts joined by one line feed, so the certificates appear in chain
    order. *)
Theorem ca_chain_text_composes (chain1 chain2 : list CertBlock) (ca : CertBlock) :
  caChainText [ca] = pemText "CERTIFICATE" (BlockBytes ca)
  ∧ (chain1 ≠ [] → chain2 ≠ [] →
     caChainText (chain1 ++ chain2)
     = caChainText chain1 +:+ String nl (caChainText chain2)).
Proof.
  split; [by rewrite caChainText_join |].
  intros H1 H2. rewrite !caChainText_join, map_app.
  rewrite Join_app; [reflexivity | by destruct chain1 | by destruct chain2].
Qed.

Lemma ca_chain_text_composes_witness :
  caChainText ([ {| BlockBytes := "0root" |} ] ++ [ {| BlockBytes := "0mid" |} ])
  = caChainText [ {| BlockBytes := "0root" |} ]
    +:+ String nl (caChainText [ {| BlockBytes := "0mid" |} ]).
Proof.
  destruct (ca_chain_text_composes [ {| BlockBytes := "0root" |} ]
              [ {| BlockBytes := "0mid" |} ] {| BlockBytes := "0root" |}) as [_ Happ].
  apply Happ; discriminate.
Defined.

(** X13: a raw CRL read that the gate lets through looks up the delta
    CRL when the path contains [delta] and the complete CRL otherwise; a
    stored CRL is returned as PEM text of type [X509 CRL] when the path
    contains [pem] and verbatim otherwise, and an absent one as an empty
    body with status 204. *)
Theorem crl_raw_read (b : Backend) (r : Request) (data : FieldData) (serial : string) :
  classify (Path r) = CRLClass → rawPath (Path r) = true → gatePasses b r →
  serial = (if Contains (Path r) "delta" then deltaCRLPath b else legacyCRLPath b) →
  serial ≠ "" → serial ≠ "ca" → serial ≠ "ca_chain" →
  (∀ entry, fetchCertBySerial b (Path r) serial = inr (Some entry) →
     revocationReadable b serial →
     pathFetchRead b r data
     = {| response :=
            Some (if Contains (Path r) "pem"
                  then rawResponse "application/x-pem-file" (pemText "X509 CRL" (Value entry))
                  else rawResponse "application/pkix-crl" (Value entry));
          retErr := None; logged := [] |})
  ∧ (fetchCertBySerial b (Path r) serial = inr None →
     pathFetchRead b r data
     = {| response :=
            Some (rawResponse (if Contains (Path r) "pem" then "application/x-pem-file"
                               else "application/pkix-crl") "");
          retErr := None; logged := [] |}).
Proof.
  intros Hclass Hraw Hgate Hserial H0 H1 H2.
  destruct (serial_not_reserved _ H0 H1 H2) as [Hlen Hres].
  assert (Hsel : ∃ resp,
            selectResource b r data
            = if Contains (Path r) "pem"
              then Selected resp serial "X509 CRL" "application/x-pem-file"
              else Selected resp serial "" "application/pkix-crl").
  { revert Hclass Hraw Hgate. unfold rawPath, gatePasses, gateClass, classify, selectResource.
    destruct (isOneOf (Path r) caPaths); [done |].
    destruct (isOneOf (Path r) chainPaths); [done |].
    destruct (isOneOf (Path r) crlPaths);
      [| by destruct (HasSuffix (Path r) "/pem" || HasSuffix (Path r) "/raw")].
    intros _ Hraw Hgate. specialize (Hgate _ eq_refl).
    destruct (gate b r _ (mkResponse ∅)) as [resp [ret err]].
    cbn in Hgate. injection Hgate as -> ->. exists resp.
    rewrite bool_decide_eq_false_2 by (by intros ?). cbn [orb]. rewrite <- Hserial.
    destruct (Contains (Path r) "pem"); [reflexivity |].
    revert Hraw. by destruct (isOneOf (Path r) ["cert/crl"; "cert/delta-crl"]). }
  destruct Hsel as [resp Hsel].
  split.
  - intros entry Hcert Hrev. unfold pathFetchRead, resolve.
    destruct (Contains (Path r) "pem"); rewrite Hsel, Hlen, Hres, Hcert.
    + change (nonEmpty "X509 CRL") with true. cbn iota.
      destruct Hrev as [-> | (re & info & -> & ->)]; by rewrite reply_raw.
    + change (nonEmpty "") with false. cbn iota.
      destruct Hrev as [-> | (re & info & -> & ->)]; by rewrite reply_raw.
  - intros Hcert. unfold pathFetchRead, resolve.
    destruct (Contains (Path r) "pem"); rewrite Hsel, Hlen, Hres, Hcert;
      by rewrite reply_raw.
Qed.

Lemma crl_raw_read_witness :
  pathFetchRead
    (withResolvers (backend passes noCA [] [] []) (λ _ _, noCA)
       (λ prefix serial,
          if String.prefix "revoked/" prefix then inr None
          else if String.eqb serial "delta-crl"
               then inr (Some {| Key := "delta-crl"; Value := "0delta" |})
               else inr None)
       (λ _, inl storageDown))
    (request "crl/delta/pem") (fields "")
  = {| response := Some (rawResponse "application/x-pem-file" (pemText "X509 CRL" "0delta"));
       retErr := None; logged := [] |}.
Proof.
  destruct (crl_raw_read
              (withResolvers (backend passes noCA [] [] []) (λ _ _, noCA)
                 (λ prefix serial,
                    if String.prefix "revoked/" prefix then inr None
                    else if String.eqb serial "delta-crl"
                         then inr (Some {| Key := "delta-crl"; Value := "0delta" |})
                         else inr None)
                 (λ _, inl storageDown))
              (request "crl/delta/pem") (fields "") "delta-crl")
    as [Hfound _];
    [reflexivity | reflexivity | | reflexivity | discriminate | discriminate | discriminate |].
  - intros ty [= <-]. reflexivity.
  - apply (Hfound {| Key := "delta-crl"; Value := "0delta" |}); [reflexivity |].
    left. reflexivity.
Defined.

(** ** Routes and the first [switch] *)

Section RouteFacts.

(** The segments of a path: [strings.Split(p, "/")]. *)
Lemma allSerialChars_app_slash (s t u v : string) :
  allSerialChars s = true → allSerialChars u = true →
  s +:+ String "/" t = u +:+ String "/" v → s = u ∧ t = v.
Proof.
  revert u. induction s as [|c s IH]; intros u Hs Hu.
  - destruct u as [|d u]; rewrite ?sapp_cons, ?sapp_nil.
    + by intros [= ->].
    + intros [= <- _]. cbn in Hu. discriminate.
  - destruct u as [|d u]; rewrite ?sapp_cons, ?sapp_nil.
    + intros [= -> _]. cbn in Hs. discriminate.
    + intros [= -> Heq]. cbn [allSerialChars] in Hs, Hu.
      apply andb_prop in Hs as [_ Hs]. apply andb_prop in Hu as [_ Hu].
      destruct (IH u Hs Hu Heq) as [-> ->]. done.
Qed.

Lemma allSerialChars_no_slash (s u v : string) :
  allSerialChars s = true → allSerialChars u = true →
  s ≠ u +:+ String "/" v.
Proof.
  revert u. induction s as [|c s IH]; intros u Hs Hu.
  - destruct u; rewrite ?sapp_cons, ?sapp_nil; discriminate.
  - destruct u as [|d u]; rewrite ?sapp_cons, ?sapp_nil.
    + intros [= -> _]. cbn in Hs. discriminate.
    + intros [= -> Heq]. cbn [allSerialChars] in Hs, Hu.
      apply andb_prop in Hs as [_ Hs]. apply andb_prop in Hu as [_ Hu].
      by apply (IH u Hs Hu).
Qed.

Lemma isOneOf_false (p : string) (l : list string) :
  Forall (λ x, p ≠ x) l → isOneOf p l = false.
Proof.
  induction 1 as [|x l Hx _ IH]; [done |].
  unfold isOneOf in *. cbn [existsb]. rewrite IH.
  apply String.eqb_neq in Hx. by rewrite Hx.
Qed.

Lemma length_sapp (a c : string) :
  String.length (a +:+ c) = (String.length a + String.length c)%nat.
Proof. induction a as [|x a IH]; [done |]. rewrite sapp_cons. cbn. by rewrite IH. Qed.

Lemma substring_all (x : string) : substring 0 (String.length x) x = x.
Proof. induction x as [|c x IH]; [done |]. cbn. by rewrite IH. Qed.

Lemma substring_skip (pre suf : string) :
  substring (String.length pre) (String.length suf) (pre +:+ suf) = suf.
Proof.
  induction pre as [|c pre IH]; [apply substring_all |].
  rewrite sapp_cons. cbn. exact IH.
Qed.

Lemma substring_tail (k : nat) (x : string) :
  (k ≤ String.length x)%nat →
  ∃ pre, x = pre +:+ substring k (String.length x - k) x.
Proof.
  revert x. induction k as [|k IH]; intros x Hk.
  - exists "". rewrite Nat.sub_0_r, substring_all. reflexivity.
  - destruct x as [|c x]; [cbn in Hk; lia |].
    destruct (IH x) as [pre Hpre]; [cbn in Hk; lia |].
    exists (String c pre). rewrite sapp_cons. cbn. by rewrite <- Hpre.
Qed.

(** [strings.HasSuffix] holds exactly of the texts that end with the
    suffix. *)
Lemma HasSuffix_spec (x suf : string) :
  HasSuffix x suf = true ↔ ∃ pre, x = pre +:+ suf.
Proof.
  unfold HasSuffix. split.
  - intros [Hle Heq]%andb_prop. apply Nat.leb_le in Hle. apply String.eqb_eq in Heq.
    destruct (substring_tail (String.length x - String.length suf) x) as [pre Hpre]; [lia |].
    exists pre.
    replace (String.length x - (String.length x - String.length suf))%nat
      with (String.length suf) in Hpre by lia.
    by rewrite Heq in Hpre.
  - intros [pre ->]. rewrite length_sapp. apply andb_true_intro. split.
    + apply Nat.leb_le. lia.
    + apply String.eqb_eq.
      replace (String.length pre + String.length suf - String.length suf)%nat
        with (String.length pre) by lia.
      apply substring_skip.
Qed.

Lemma lastChar_sapp (a c : string) : c ≠ "" → lastChar (a +:+ c) = lastChar c.
Proof.
  intros Hc. induction a as [|x a IH]; [done |].
  rewrite sapp_cons. cbn [lastChar].
  destruct (a +:+ c) eqn:E; [| exact IH].
  apply sapp_empty_inv in E as [_ E]. done.
Qed.

Lemma allSerialChars_last (s : string) (c : ascii) :
  allSerialChars s = true → lastChar s = Some c → serialChar c = true.
Proof.
  induction s as [|d s IH]; [done |].
  cbn [allSerialChars]. intros [Hd Hs]%andb_prop.
  destruct s as [|d' s'].
  - cbn. by intros [= <-].
  - intros Hlast. by apply IH.
Qed.

(** A path that ends with a serial has neither of the suffixes of the
    raw forms. *)
Lemma serial_end_no_raw_suffix (pre s : string) :
  matchesSerial s = true →
  HasSuffix (pre +:+ s) "/pem" || HasSuffix (pre +:+ s) "/raw" = false.
Proof.
  intros [Hne Hs]%andb_prop.
  assert (Hs0 : s ≠ "") by (by destruct s).
  apply orb_false_intro; apply not_true_is_false; intros [p Hp]%HasSuffix_spec;
    apply (f_equal lastChar) in Hp;
    rewrite (lastChar_sapp pre s Hs0) in Hp;
    rewrite lastChar_sapp in Hp by done; cbn in Hp;
    pose proof (allSerialChars_last s _ Hs Hp) as Hc; vm_compute in Hc; discriminate.
Qed.

End RouteFacts.

Section RouteClasses.

Lemma upToSlash_serial (s t : string) :
  allSerialChars s = true → upToSlash (s +:+ String "/" t) = s.
Proof.
  induction s as [|c s IH]; [done |].
  cbn [allSerialChars]. intros [Hc Hs]%andb_prop.
  rewrite sapp_cons. cbn [upToSlash]. rewrite (IH Hs).
  destruct (Ascii.eqb_spec c "/") as [-> |]; [| done].
  vm_compute in Hc. discriminate.
Qed.

(** A path [cert/<serial>] with a trailing part is none of the reserved
    paths unless the serial is [ca]. *)
Ltac not_reserved Hs Hne :=
  let Heq := fresh "Heq" in
  intros Heq; rewrite ?sapp_cons, ?sapp_nil in Heq; simplify_eq;
  try done; try (vm_compute in Hs; discriminate);
  match goal with
  | H : _ +:+ String "/" _ = _ |- _ =>
      apply (f_equal upToSlash) in H;
      rewrite upToSlash_serial in H by done;
      vm_compute in H; subst;
      try done; vm_compute in Hs; discriminate
  end.

Lemma serial_path_not_reserved (s : string) :
  allSerialChars s = true → s ≠ "ca" →
  isOneOf ("cert/" +:+ s) (caPaths ++ chainPaths ++ crlPaths) = false.
Proof.
  intros Hs Hne. apply isOneOf_false.
  repeat (apply Forall_cons; split; [not_reserved Hs Hne |]). constructor.
Qed.

Lemma raw_serial_path_not_reserved (s t : string) :
  allSerialChars s = true → s ≠ "ca" →
  isOneOf ("cert/" +:+ s +:+ String "/" t) (caPaths ++ chainPaths ++ crlPaths) = false.
Proof.
  intros Hs Hne. apply isOneOf_false.
  repeat (apply Forall_cons; split; [not_reserved Hs Hne |]). constructor.
Qed.

Lemma isOneOf_app_false (p : string) (l1 l2 l3 : list string) :
  isOneOf p (l1 ++ l2 ++ l3) = false →
  isOneOf p l1 = false ∧ isOneOf p l2 = false ∧ isOneOf p l3 = false.
Proof.
  unfold isOneOf. rewrite !existsb_app.
  intros [H1 [H2 H3]%orb_false_elim]%orb_false_elim. done.
Qed.

End RouteClasses.

(** X14: for every serial the routes' capture group accepts, the first
    [switch] of [pathFetchRead] serves [cert/<serial>] by its structured
    serial case and [cert/<serial>/raw] and [cert/<serial>/raw/pem] by its
    raw serial case, taking the serial from the request's field, with no
    conditional gate; except for the one serial [ca], which all three
    forms hand to the CA case: the CA gate is consulted and the reserved
    name [ca] is resolved whatever the field holds. *)
Theorem serial_routes_classified (b : Backend) (r : Request) (data : FieldData)
    (s : string) :
  matchesSerial s = true →
  (s ≠ "ca" →
   (Path r = "cert/" +:+ s →
    selectResource b r data
    = Selected (mkResponse ∅) (serial_ data) "CERTIFICATE" "")
   ∧ (Path r = "cert/" +:+ s +:+ "/raw" →
      selectResource b r data
      = Selected (mkResponse ∅) (serial_ data) "" "application/pkix-cert")
   ∧ (Path r = "cert/" +:+ s +:+ "/raw/pem" →
      selectResource b r data
      = Selected (mkResponse ∅) (serial_ data) "CERTIFICATE"
          "application/pem-certificate-chain"))
  ∧ (s = "ca" →
     Path r = "cert/" +:+ s ∨ Path r = "cert/" +:+ s +:+ "/raw"
     ∨ Path r = "cert/" +:+ s +:+ "/raw/pem" →
     ∀ resp' ret err,
       gate b r ifModifiedCA (mkResponse ∅) = (resp', (ret, err)) →
       (err ≠ None ∨ ret = true →
        selectResource b r data = ToReply (gateExit resp' err))
       ∧ (err = None → ret = false →
          ∃ pemType contentType,
            selectResource b r data = Selected resp' "ca" pemType contentType))
  ∧ classify ("cert/" +:+ s) = (if String.eqb s "ca" then CAClass else SerialClass)
  ∧ classify ("cert/" +:+ s +:+ "/raw")
    = (if String.eqb s "ca" then CAClass else RawSerialClass)
  ∧ classify ("cert/" +:+ s +:+ "/raw/pem")
    = (if String.eqb s "ca" then CAClass else RawSerialClass).
Proof.
  intros Hm. pose proof Hm as [Hne0 Hs]%andb_prop.
  assert (Hraw : HasSuffix ("cert/" +:+ s +:+ "/raw") "/raw" = true).
  { apply HasSuffix_spec. exists ("cert/" +:+ s). by rewrite sapp_assoc. }
  assert (Hpem : HasSuffix ("cert/" +:+ s +:+ "/raw/pem") "/pem" = true).
  { apply HasSuffix_spec. exists ("cert/" +:+ s +:+ "/raw").
    rewrite !sapp_assoc. reflexivity. }
  assert (Hnopem : HasSuffix ("cert/" +:+ s +:+ "/raw") "/pem" = false).
  { apply not_true_is_false. intros [p Hp]%HasSuffix_spec.
    apply (f_equal lastChar) in Hp.
    rewrite <- sapp_assoc in Hp. rewrite !lastChar_sapp in Hp by done.
    discriminate Hp. }
  assert (Hserial : s ≠ "ca" →
    (isOneOf ("cert/" +:+ s) caPaths = false
     ∧ isOneOf ("cert/" +:+ s) chainPaths = false
     ∧ isOneOf ("cert/" +:+ s) crlPaths = false)
    ∧ (isOneOf ("cert/" +:+ s +:+ "/raw") caPaths = false
       ∧ isOneOf ("cert/" +:+ s +:+ "/raw") chainPaths = false
       ∧ isOneOf ("cert/" +:+ s +:+ "/raw") crlPaths = false)
    ∧ (isOneOf ("cert/" +:+ s +:+ "/raw/pem") caPaths = false
       ∧ isOneOf ("cert/" +:+ s +:+ "/raw/pem") chainPaths = false
       ∧ isOneOf ("cert/" +:+ s +:+ "/raw/pem") crlPaths = false)).
  { intros Hne. split; [| split].
    - exact (isOneOf_app_false _ _ _ _ (serial_path_not_reserved s Hs Hne)).
    - exact (isOneOf_app_false _ _ _ _ (raw_serial_path_not_reserved s "raw" Hs Hne)).
    - exact (isOneOf_app_false _ _ _ _ (raw_serial_path_not_reserved s "raw/pem" Hs Hne)). }
  split; [| split].
  - intros Hne.
    destruct (Hserial Hne) as ((A1 & A2 & A3) & (B1 & B2 & B3) & (C1 & C2 & C3)).
    split; [| split]; intros Hpath; unfold selectResource; rewrite Hpath.
    + rewrite A1, A2, A3. by rewrite (serial_end_no_raw_suffix "cert/" s Hm).
    + rewrite B1, B2, B3, Hraw, Hnopem. reflexivity.
    + rewrite C1, C2, C3, Hpem. reflexivity.
  - intros -> Hpath resp' ret err Hgate.
    assert (Hca : isOneOf (Path r) caPaths = true).
    { destruct Hpath as [-> | [-> | ->]]; reflexivity. }
    unfold selectResource. rewrite Hca, Hgate. split.
    + intros Hstop.
      assert (Hb : bool_decide (err ≠ None) || ret = true).
      { destruct Hstop as [Herr | ->]; [| apply orb_true_r].
        by rewrite bool_decide_eq_true_2. }
      by rewrite Hb.
    + intros -> ->. rewrite bool_decide_eq_false_2 by (by intros ?). cbn [orb].
      destruct (isOneOf (Path r) ["ca/pem"; "cert/ca/raw/pem"]); [by eauto |].
      destruct (String.eqb (Path r) "cert/ca"); by eauto.
  - destruct (String.eqb_spec s "ca") as [-> | Hne]; [by repeat split |].
    destruct (Hserial Hne) as ((A1 & A2 & A3) & (B1 & B2 & B3) & (C1 & C2 & C3)).
    split; [| split]; unfold classify.
    + rewrite A1, A2, A3. by rewrite (serial_end_no_raw_suffix "cert/" s Hm).
    + rewrite B1, B2, B3, Hraw, orb_true_r. reflexivity.
    + rewrite C1, C2, C3, Hpem. reflexivity.
Qed.

Lemma serial_routes_classified_witness :
  selectResource (backend passes noCA [] [] []) (request "cert/1a-2b-3c/raw")
                 (fields "1a-2b-3c")
  = Selected (mkResponse ∅) "1a-2b-3c" "" "application/pkix-cert"
  ∧ ∃ pemType contentType,
      selectResource (backend passes noCA [] [] []) (request "cert/ca/raw/pem")
                     (fields "1a-2b-3c")
      = Selected (mkResponse ∅) "ca" pemType contentType.
Proof.
  split.
  - destruct (serial_routes_classified (backend passes noCA [] [] [])
                (request "cert/1a-2b-3c/raw") (fields "1a-2b-3c") "1a-2b-3c" eq_refl)
      as [Hserial _].
    destruct Hserial as (_ & Hraw & _); [discriminate |].
    apply Hraw. reflexivity.
  - destruct (serial_routes_classified (backend passes noCA [] [] [])
                (request "cert/ca/raw/pem") (fields "1a-2b-3c") "ca" eq_refl)
      as (_ & Hca & _).
    destruct (Hca eq_refl (or_intror (or_intror eq_refl)) (mkResponse ∅) false None eq_refl)
      as [_ Hpass].
    apply Hpass; reflexivity.
Defined.

(** ** Further facts about the listings *)

Section ListingSuccess.

Context (b : Backend) (view : StorageView).

Lemma entryReadable_parsed (e : string) :
  entryReadable b view e → ∃ certData, parsedEntry b view e = Some certData.
Proof.
  intros (entry & certData & Hget & Hparse). exists certData.
  unfold parsedEntry. by rewrite Hget, Hparse.
Qed.

(** When every entry is read back and parses, the loop ends with the
    listing of all display forms and of the metadata built on the way. *)
Lemma listLoop_success (entries keys : list string) (info : gmap string value) :
  Forall (entryReadable b view) entries →
  listLoop b view entries keys info
  = done (Some (ListResponseWithInfo (keys ++ (denormalizeSerial b <$> entries))
                  (infoAfter b view entries info))) None.
Proof.
  intros Hall. revert keys info.
  induction Hall as [|e rest (entry & certData & Hget & Hparse) _ IH]; intros keys info.
  - cbn. by rewrite app_nil_r.
  - cbn [listLoop]. rewrite Hget, Hparse, IH.
    assert (Hinfo : infoAfter b view (e :: rest) info
                    = infoAfter b view rest (<[denormalizeSerial b e := certInfo certData]> info)).
    { unfold infoAfter. cbn [foldl]. unfold parsedEntry at 2. by rewrite Hget, Hparse. }
    rewrite Hinfo, fmap_cons, <- app_assoc. reflexivity.
Qed.

Lemma infoAfter_other (entries : list string) (info : gmap string value) (k : string) :
  k ∉ denormalizeSerial b <$> entries →
  infoAfter b view entries info !! k = info !! k.
Proof.
  revert info. induction entries as [|e rest IH]; intros info Hk; [done |].
  unfold infoAfter in *. cbn [foldl]. rewrite fmap_cons in Hk.
  apply not_elem_of_cons in Hk as [Hne Hk]. rewrite IH by done.
  destruct (parsedEntry b view e); [by rewrite lookup_insert_ne | done].
Qed.

Lemma infoAfter_keeps (entries : list string) (info : gmap string value) (k : string) :
  is_Some (info !! k) → is_Some (infoAfter b view entries info !! k).
Proof.
  revert info. induction entries as [|e rest IH]; intros info Hk; [done |].
  unfold infoAfter in *. cbn [foldl]. apply IH.
  destruct (parsedEntry b view e); [| done].
  rewrite lookup_insert. case_decide; [by eexists | done].
Qed.

Lemma infoAfter_dom (entries : list string) (info : gmap string value) (k : string) :
  Forall (entryReadable b view) entries →
  is_Some (infoAfter b view entries info !! k)
  ↔ k ∈ denormalizeSerial b <$> entries ∨ is_Some (info !! k).
Proof.
  intros Hall. revert info.
  induction Hall as [|e rest He _ IH]; intros info.
  - cbn. rewrite elem_of_nil. tauto.
  - destruct (entryReadable_parsed e He) as [certData Hp].
    unfold infoAfter in *. cbn [foldl]. rewrite Hp, IH, fmap_cons, elem_of_cons.
    rewrite lookup_insert. case_decide as Hk.
    + subst k. split; [intros _ | intros _; right; by eexists]. by left; left.
    + split; [intros [? | ?]; [left; by right | by right] |].
      intros [[-> | ?] | ?]; [done | by left | by right].
Qed.

Lemma infoAfter_at (entries : list string) (info : gmap string value) (e : string)
    (certData : Certificate) :
  NoDup (denormalizeSerial b <$> entries) →
  e ∈ entries → parsedEntry b view e = Some certData →
  infoAfter b view entries info !! denormalizeSerial b e = Some (certInfo certData).
Proof.
  revert info. induction entries as [|x rest IH]; intros info Hnd Hin Hp.
  - by apply elem_of_nil in Hin.
  - rewrite fmap_cons in Hnd. apply NoDup_cons in Hnd as [Hx Hnd].
    unfold infoAfter in *. cbn [foldl].
    apply elem_of_cons in Hin as [-> | Hin].
    + fold (infoAfter b view rest
              (match parsedEntry b view x with
               | Some c => <[denormalizeSerial b x := certInfo c]> info
               | None => info
               end)).
      rewrite infoAfter_other by done. rewrite Hp. apply lookup_insert_eq.
    + by apply IH.
Qed.

(** The metadata kept by [ListResponseWithInfo]: what [keyInfo] holds
    for the listed keys. *)
Lemma keyInfoData_lookup (keys : list string) (keyInfo acc : gmap string value)
    (k : string) :
  foldl (λ acc key, match keyInfo !! key with
                    | Some val => <[key := val]> acc
                    | None => acc
                    end) acc keys !! k
  = if decide (k ∈ keys)
    then match keyInfo !! k with Some v => Some v | None => acc !! k end
    else acc !! k.
Proof.
  revert acc. induction keys as [|x keys IH]; intros acc.
  - cbn. by rewrite decide_False by apply not_elem_of_nil.
  - cbn [foldl]. rewrite IH.
    destruct (decide (k = x)) as [-> | Hne].
    + rewrite (decide_True (P := x ∈ x :: keys)) by (apply elem_of_cons; by left).
      destruct (keyInfo !! x) as [v |] eqn:Hv.
      * rewrite lookup_insert_eq. by case_decide.
      * by case_decide.
    + assert (Hiff : k ∈ x :: keys ↔ k ∈ keys).
      { rewrite elem_of_cons. tauto. }
      destruct (keyInfo !! x) as [v |] eqn:Hv.
      * rewrite lookup_insert_ne by done.
        destruct (decide (k ∈ keys)) as [Hin | Hnin].
        -- by rewrite decide_True by (by apply Hiff).
        -- by rewrite decide_False by (by rewrite Hiff).
      * destruct (decide (k ∈ keys)) as [Hin | Hnin].
        -- by rewrite decide_True by (by apply Hiff).
        -- by rewrite decide_False by (by rewrite Hiff).
Qed.

End ListingSuccess.

Section ListingData.

(** The data of a listing response whose keys all have metadata. *)
Lemma ListResponseWithInfo_data (keys : list string) (keyInfo : gmap string value) :
  (keys = [] → Data (ListResponseWithInfo keys keyInfo) = ∅)
  ∧ (keys ≠ [] → (∀ k, k ∈ keys → is_Some (keyInfo !! k)) →
     Data (ListResponseWithInfo keys keyInfo) !! "keys" = Some (VStrings keys)
     ∧ Data (ListResponseWithInfo keys keyInfo) !! "error" = None
     ∧ ∃ m, Data (ListResponseWithInfo keys keyInfo) !! "key_info" = Some (VMap m)
            ∧ ∀ k, m !! k = if decide (k ∈ keys) then keyInfo !! k else None).
Proof.
  split.
  - intros ->. reflexivity.
  - intros Hne Hall. unfold ListResponseWithInfo, ListResponse.
    destruct keys as [|k0 keys']; [done |]. set (keys := k0 :: keys') in *.
    change (length keys =? 0)%nat with false. cbn iota.
    remember (foldl (λ acc key, match keyInfo !! key with
                                | Some val => <[key := val]> acc
                                | None => acc
                                end) ∅ keys) as m eqn:Hm.
    assert (Hlook : ∀ k, m !! k = if decide (k ∈ keys) then keyInfo !! k else None).
    { intros k. rewrite Hm, keyInfoData_lookup, lookup_empty.
      case_decide; [| done]. by destruct (keyInfo !! k). }
    assert (Hsize : (0 <? size m)%nat = true).
    { apply Nat.ltb_lt.
      assert (size m ≠ 0%nat); [| lia].
      apply (map_size_ne_0_lookup_2 m k0). rewrite Hlook.
      rewrite decide_True by (apply elem_of_cons; by left).
      apply Hall. apply elem_of_cons. by left. }
    rewrite Hsize. unfold setData, mkResponse; cbn [Data].
    split; [by simplify_map_eq |]. split; [by simplify_map_eq |].
    exists m. split; [by simplify_map_eq | exact Hlook].
Qed.

Context (b : Backend) (r : Request) (data : FieldData).

(** The outcome of a detailed listing all of whose entries parse. *)
Lemma detailed_listing_outcome (view : StorageView) (entries : list string) :
  openReadOnly (ReqStorage r) = inr view →
  ListPage view "certs/" (after_ data) (pageLimit (limit_ data)) = inr entries →
  Forall (entryReadable b view) entries →
  pathFetchCertListDetailed b r data
  = {| response := Some (ListResponseWithInfo (denormalizeSerial b <$> entries)
                           (infoAfter b view entries ∅));
       retErr := None; logged := [] |}.
Proof.
  intros Hopen Hpage Hall. unfold pathFetchCertListDetailed.
  rewrite Hopen, Hpage, (listLoop_success b view entries [] ∅ Hall). reflexivity.
Qed.

End ListingData.

(** X15: a detailed listing all of whose entries are read back and parse
    returns the display forms of the page's serials in page order under
    [keys], and under [key_info] a map with an entry for exactly those
    display forms; when the display forms are pairwise distinct each one
    maps to the metadata of its own certificate.  An empty page gives a
    response with no data. *)
Theorem detailed_listing_success (b : Backend) (r : Request) (data : FieldData)
    (view : StorageView) (entries : list string) :
  openReadOnly (ReqStorage r) = inr view →
  ListPage view "certs/" (after_ data) (pageLimit (limit_ data)) = inr entries →
  Forall (entryReadable b view) entries →
  ∃ resp,
    pathFetchCertListDetailed b r data
    = {| response := Some resp; retErr := None; logged := [] |}
    ∧ (entries = [] → Data resp = ∅)
    ∧ (entries ≠ [] →
       Data resp !! "keys" = Some (VStrings (denormalizeSerial b <$> entries))
       ∧ ∃ m, Data resp !! "key_info" = Some (VMap m)
              ∧ (∀ k, is_Some (m !! k) ↔ k ∈ denormalizeSerial b <$> entries)
              ∧ (NoDup (denormalizeSerial b <$> entries) →
                 ∀ e certData, e ∈ entries → parsedEntry b view e = Some certData →
                   m !! denormalizeSerial b e = Some (certInfo certData))).
Proof.
  intros Hopen Hpage Hall.
  rewrite (detailed_listing_outcome b r data view entries Hopen Hpage Hall).
  eexists. split; [reflexivity |].
  destruct (ListResponseWithInfo_data (denormalizeSerial b <$> entries)
              (infoAfter b view entries ∅)) as [Hempty Hfull].
  split.
  - intros ->. by apply Hempty.
  - intros Hne.
    assert (Hdom : ∀ k, is_Some (infoAfter b view entries ∅ !! k)
                        ↔ k ∈ denormalizeSerial b <$> entries).
    { intros k. rewrite (infoAfter_dom b view entries ∅ k Hall), lookup_empty.
      split; [intros [? | [? ?]]; done | by left]. }
    destruct Hfull as (Hkeys & _ & m & Hinfo & Hm).
    + by destruct entries.
    + intros k Hk. by apply Hdom.
    + split; [exact Hkeys |]. exists m. split; [exact Hinfo |]. split.
      * intros k. rewrite Hm. case_decide as Hk.
        -- split; [done | intros _; by apply Hdom].
        -- split; [by intros [? ?] | done].
      * intros Hnd e certData He Hp. rewrite Hm.
        rewrite decide_True by (by apply list_elem_of_fmap_2).
        by apply infoAfter_at.
Qed.

Lemma detailed_listing_success_witness :
  ∃ resp,
    pathFetchCertListDetailed (backend passes noCA [] [] [])
      (listRequest (tableView [("aa", "0a"); ("b-b", "0b")])) (fields "")
    = {| response := Some resp; retErr := None; logged := [] |}
    ∧ Data resp !! "keys" = Some (VStrings ["aa"; "b:b"]).
Proof.
  destruct (detailed_listing_success (backend passes noCA [] [] [])
              (listRequest (tableView [("aa", "0a"); ("b-b", "0b")])) (fields "")
              (tableView [("aa", "0a"); ("b-b", "0b")]) ["aa"; "b-b"] eq_refl eq_refl)
    as (resp & Hout & _ & Hfull).
  - constructor; [| constructor; [| constructor]].
    + exists {| Key := "certs/aa"; Value := "0a" |}. eexists. split; reflexivity.
    + exists {| Key := "certs/b-b"; Value := "0b" |}. eexists. split; reflexivity.
  - exists resp. split; [exact Hout |].
    destruct Hfull as [Hkeys _]; [discriminate | exact Hkeys].
Defined.

(** X16: on a storage without transactions, a detailed listing all of
    whose entries parse returns the same [keys] as the plain listing of
    the same page. *)
Theorem listings_agree_on_keys (b : Backend) (r : Request) (data : FieldData)
    (entries : list string) :
  BeginReadOnlyTx (ReqStorage r) = None →
  ListPage (plain (ReqStorage r)) "certs/" (after_ data) (pageLimit (limit_ data))
  = inr entries →
  Forall (entryReadable b (plain (ReqStorage r))) entries →
  ∃ detailed listed,
    response (pathFetchCertListDetailed b r data) = Some detailed
    ∧ response (pathFetchCertList b r data) = Some listed
    ∧ Data detailed !! "keys" = Data listed !! "keys"
    ∧ retErr (pathFetchCertListDetailed b r data) = None
    ∧ retErr (pathFetchCertList b r data) = None.
Proof.
  intros Htx Hpage Hall.
  assert (Hopen : openReadOnly (ReqStorage r) = inr (plain (ReqStorage r))).
  { unfold openReadOnly. by rewrite Htx. }
  rewrite (detailed_listing_outcome b r data _ entries Hopen Hpage Hall).
  unfold pathFetchCertList. rewrite Hpage. cbn [response retErr done].
  do 2 eexists. split; [reflexivity |]. split; [reflexivity |].
  split; [| done].
  destruct (ListResponseWithInfo_data (denormalizeSerial b <$> entries)
              (infoAfter b (plain (ReqStorage r)) entries ∅)) as [Hempty Hfull].
  destruct entries as [|e rest].
  - rewrite Hempty by done. reflexivity.
  - destruct Hfull as (Hkeys & _); [done | |].
    + intros k Hk. apply (infoAfter_dom b _ _ ∅ k Hall). by left.
    + rewrite Hkeys. reflexivity.
Qed.

Lemma listings_agree_on_keys_witness :
  ∃ detailed listed,
    response (pathFetchCertListDetailed (backend passes noCA [] [] [])
                {| Path := "certs/detailed";
                   ReqStorage := {| plain := tableView [("aa", "0a"); ("b-b", "0b")];
                                    BeginReadOnlyTx := None |} |} (fields ""))
    = Some detailed
    ∧ response (pathFetchCertList (backend passes noCA [] [] [])
                  {| Path := "certs/detailed";
                     ReqStorage := {| plain := tableView [("aa", "0a"); ("b-b", "0b")];
                                      BeginReadOnlyTx := None |} |} (fields ""))
      = Some listed
    ∧ Data detailed !! "keys" = Data listed !! "keys".
Proof.
  destruct (listings_agree_on_keys (backend passes noCA [] [] [])
              {| Path := "certs/detailed";
                 ReqStorage := {| plain := tableView [("aa", "0a"); ("b-b", "0b")];
                                  BeginReadOnlyTx := None |} |} (fields "")
              ["aa"; "b-b"] eq_refl eq_refl)
    as (detailed & listed & Hd & Hl & Hkeys & _).
  - constructor; [| constructor; [| constructor]].
    + exists {| Key := "certs/aa"; Value := "0a" |}. eexists. split; reflexivity.
    + exists {| Key := "certs/b-b"; Value := "0b" |}. eexists. split; reflexivity.
  - exists detailed, listed. repeat split; assumption.
Defined.

Section PageRequest.

Context (b : Backend) (r : Request) (data : FieldData).

Lemma expectPage_same (v : StorageView) (after : string) (limit : Z) :
  ListPage (expectPage v after limit) "certs/" after limit = ListPage v "certs/" after limit.
Proof.
  unfold expectPage; cbn [ListPage].
  rewrite !String.eqb_refl, Z.eqb_refl. reflexivity.
Qed.

Lemma listLoop_expectPage (v : StorageView) (after : string) (limit : Z)
    (entries keys : list string) (info : gmap string value) :
  listLoop b (expectPage v after limit) entries keys info = listLoop b v entries keys info.
Proof.
  revert keys info. induction entries as [|e rest IH]; intros keys info; [done |].
  cbn [listLoop]. change (Get (expectPage v after limit)) with (Get v).
  destruct (Get v ("certs/" +:+ e)) as [err | [entry |]]; [done | | done].
  destruct (ParseCertificate b (Value entry)); [done | apply IH].
Qed.

(** Both listings make the one page request for the prefix [certs/],
    the given cursor and the limit [limit]: answering that request alone
    leaves their outcomes as they are. *)
Lemma listings_request_page (limit : Z) :
  pageLimit (limit_ data) = limit →
  pathFetchCertList b (onStorage r (expectPageOn (ReqStorage r) (after_ data) limit)) data
  = pathFetchCertList b r data
  ∧ pathFetchCertListDetailed b
      (onStorage r (expectPageOn (ReqStorage r) (after_ data) limit)) data
    = pathFetchCertListDetailed b r data.
Proof.
  intros Hlim. split.
  - unfold pathFetchCertList. cbn [ReqStorage onStorage plain expectPageOn].
    by rewrite Hlim, expectPage_same.
  - unfold pathFetchCertListDetailed, openReadOnly.
    cbn [ReqStorage onStorage plain expectPageOn BeginReadOnlyTx].
    rewrite Hlim.
    destruct (BeginReadOnlyTx (ReqStorage r)) as [[err | txn] |]; cbn [fmap option_fmap option_map].
    + reflexivity.
    + rewrite expectPage_same.
      destruct (ListPage txn "certs/" (after_ data) limit); [done |].
      apply listLoop_expectPage.
    + rewrite expectPage_same.
      destruct (ListPage (plain (ReqStorage r)) "certs/" (after_ data) limit); [done |].
      apply listLoop_expectPage.
Qed.

End PageRequest.

(** X17: both listings treat every limit that is zero or negative as
    "no limit": they request the page with limit -1, so the outcome is the
    one for limit -1; with a positive limit they request the page with
    that very limit.  In both cases this is the only page request made:
    a storage that answers that request alone (prefix [certs/], the given
    cursor, that limit) and fails on every other gives the same
    outcomes. *)
Theorem listing_limit_normalised (b : Backend) (r : Request) (data : FieldData) :
  (limit_ data ≤ 0 →
   pathFetchCertList b r data = pathFetchCertList b r (withLimit data (-1))
   ∧ pathFetchCertListDetailed b r data
     = pathFetchCertListDetailed b r (withLimit data (-1))
   ∧ pathFetchCertList b (onStorage r (expectPageOn (ReqStorage r) (after_ data) (-1))) data
     = pathFetchCertList b r data
   ∧ pathFetchCertListDetailed b
       (onStorage r (expectPageOn (ReqStorage r) (after_ data) (-1))) data
     = pathFetchCertListDetailed b r data)
  ∧ (0 < limit_ data →
     pathFetchCertList b
       (onStorage r (expectPageOn (ReqStorage r) (after_ data) (limit_ data))) data
     = pathFetchCertList b r data
     ∧ pathFetchCertListDetailed b
         (onStorage r (expectPageOn (ReqStorage r) (after_ data) (limit_ data))) data
       = pathFetchCertListDetailed b r data).
Proof.
  split.
  - intros Hle.
    assert (Hneg : pageLimit (limit_ data) = -1).
    { unfold pageLimit. destruct (limit_ data <=? 0) eqn:E; [done | lia]. }
    split; [| split].
    + unfold pathFetchCertList. by rewrite Hneg.
    + unfold pathFetchCertListDetailed. by rewrite Hneg.
    + exact (listings_request_page b r data (-1) Hneg).
  - intros Hpos. apply listings_request_page.
    unfold pageLimit. destruct (limit_ data <=? 0) eqn:E; [lia | done].
Qed.

Lemma listing_limit_normalised_witness :
  pathFetchCertList (backend passes noCA [] [] [])
    (listRequest (tableView [("aa", "0a")]))
    {| serial_ := ""; after_ := ""; limit_ := -7 |}
  = pathFetchCertList (backend passes noCA [] [] [])
      (listRequest (tableView [("aa", "0a")]))
      {| serial_ := ""; after_ := ""; limit_ := -1 |}
  ∧ pathFetchCertListDetailed (backend passes noCA [] [] [])
      (onStorage (listRequest (tableView [("aa", "0a")]))
         (expectPageOn (ReqStorage (listRequest (tableView [("aa", "0a")]))) "" 2))
      {| serial_ := ""; after_ := ""; limit_ := 2 |}
    = pathFetchCertListDetailed (backend passes noCA [] [] [])
        (listRequest (tableView [("aa", "0a")]))
        {| serial_ := ""; after_ := ""; limit_ := 2 |}.
Proof.
  split.
  - destruct (listing_limit_normalised (backend passes noCA [] [] [])
                (listRequest (tableView [("aa", "0a")]))
                {| serial_ := ""; after_ := ""; limit_ := -7 |}) as [Hle _].
    destruct Hle as [Hplain _]; [by vm_compute | exact Hplain].
  - destruct (listing_limit_normalised (backend passes noCA [] [] [])
                (listRequest (tableView [("aa", "0a")]))
                {| serial_ := ""; after_ := ""; limit_ := 2 |}) as [_ Hpos].
    destruct Hpos as [_ Hdetailed]; [by vm_compute | exact Hdetailed].
Defined.

(** X18: on a transactional storage the detailed listing reads the page
    and every entry from the read-only transaction alone: the outcome is
    the one over the transaction's view, whatever the storage itself
    holds; and when the transaction cannot be started the listing returns
    the wrapped error with a nil response instead of falling back to the
    storage. *)
Theorem detailed_listing_uses_transaction (b : Backend) (r : Request) (data : FieldData) :
  (∀ txn, BeginReadOnlyTx (ReqStorage r) = Some (inr txn) →
     pathFetchCertListDetailed b r data
     = pathFetchCertListDetailed b
         (onStorage r {| plain := txn; BeginReadOnlyTx := None |}) data)
  ∧ (∀ err, BeginReadOnlyTx (ReqStorage r) = Some (inl err) →
       pathFetchCertListDetailed b r data
       = {| response := None;
            retErr := Some (OtherError ("failed to start read-only transaction: "
                                        +:+ errorText err));
            logged := [] |}).
Proof.
  split.
  - intros txn Htx. unfold pathFetchCertListDetailed, openReadOnly.
    rewrite Htx. reflexivity.
  - intros err Htx. unfold pathFetchCertListDetailed, openReadOnly.
    rewrite Htx. reflexivity.
Qed.

Lemma detailed_listing_uses_transaction_witness :
  pathFetchCertListDetailed (backend passes noCA [] [] [])
    {| Path := "certs/detailed";
       ReqStorage := {| plain := tableView [("zz", "xbad")];
                        BeginReadOnlyTx := Some (inr (tableView [("aa", "0a")])) |} |}
    (fields "")
  = pathFetchCertListDetailed (backend passes noCA [] [] [])
      {| Path := "certs/detailed";
         ReqStorage := {| plain := tableView [("aa", "0a")]; BeginReadOnlyTx := None |} |}
      (fields "").
Proof.
  destruct (detailed_listing_uses_transaction (backend passes noCA [] [] [])
              {| Path := "certs/detailed";
                 ReqStorage := {| plain := tableView [("zz", "xbad")];
                                  BeginReadOnlyTx := Some (inr (tableView [("aa", "0a")])) |} |}
              (fields "")) as [Htxn _].
  apply (Htxn (tableView [("aa", "0a")])). reflexivity.
Defined.

(** X19: storage errors of the detailed listing are returned unchanged
    with a nil response: the error of the page request, and the error of
    reading back an entry once the entries before it were read back and
    parsed. *)
Theorem detailed_listing_storage_errors (b : Backend) (r : Request) (data : FieldData)
    (view : StorageView) (err : error) :
  openReadOnly (ReqStorage r) = inr view →
  (ListPage view "certs/" (after_ data) (pageLimit (limit_ data)) = inl err →
   pathFetchCertListDetailed b r data
   = {| response := None; retErr := Some err; logged := [] |})
  ∧ (∀ pre k post,
       ListPage view "certs/" (after_ data) (pageLimit (limit_ data))
       = inr (pre ++ k :: post)%list →
       Forall (entryReadable b view) pre →
       Get view ("certs/" +:+ k) = inl err →
       pathFetchCertListDetailed b r data
       = {| response := None; retErr := Some err; logged := [] |}).
Proof.
  intros Hopen. split.
  - intros Hpage. unfold pathFetchCertListDetailed. by rewrite Hopen, Hpage.
  - intros pre k post Hpage Hpre Hget.
    unfold pathFetchCertListDetailed. rewrite Hopen, Hpage.
    destruct (listLoop_prefix b view pre (k :: post) [] ∅ Hpre) as (keys & info & ->).
    cbn [listLoop]. by rewrite Hget.
Qed.

Lemma detailed_listing_storage_errors_witness :
  pathFetchCertListDetailed (backend passes noCA [] [] [])
    (listRequest (failingView [("aa", "0a"); ("bb", "0b")] "bb" storageDown)) (fields "")
  = {| response := None; retErr := Some storageDown; logged := [] |}.
Proof.
  destruct (detailed_listing_storage_errors (backend passes noCA [] [] [])
              (listRequest (failingView [("aa", "0a"); ("bb", "0b")] "bb" storageDown))
              (fields "")
              (failingView [("aa", "0a"); ("bb", "0b")] "bb" storageDown)
              storageDown eq_refl) as [_ Hget].
  apply (Hget ["aa"] "bb" []); [reflexivity | | reflexivity].
  constructor; [| constructor].
  exists {| Key := "certs/aa"; Value := "0a" |}. eexists. split; reflexivity.
Defined.

(** X20: the metadata of a certificate has exactly the seven keys
    [common_name], [issuer], [key_type], [key_bits], [not_after],
    [not_before] and [dns_names]; [dns_names] holds the first five DNS
    names of the certificate, all of them when there are at most five. *)
Theorem cert_info_fields (certData : Certificate) :
  ∃ m names,
    certInfo certData = VMap m
    ∧ dom m = {[ "common_name"; "issuer"; "key_type"; "key_bits"; "not_after";
                 "not_before"; "dns_names" ]}
    ∧ m !! "dns_names" = Some (VStrings names)
    ∧ names = take 5 (DNSNames certData)
    ∧ (length names ≤ 5)%nat
    ∧ ((length (DNSNames certData) ≤ 5)%nat → names = DNSNames certData)
    ∧ m !! "common_name" = Some (VString (SubjectCommonName certData))
    ∧ m !! "key_type" = Some (VString (keyTypeAndBits (CertPublicKey certData)).1)
    ∧ m !! "key_bits" = Some (VInt (keyTypeAndBits (CertPublicKey certData)).2).
Proof.
  unfold certInfo.
  destruct (keyTypeAndBits (CertPublicKey certData)) as [keyType keyBits].
  eexists. exists (take 5 (DNSNames certData)).
  assert (Hnames : (if (5 <? length (DNSNames certData))%nat
                    then take 5 (DNSNames certData) else DNSNames certData)
                   = take 5 (DNSNames certData)).
  { destruct (5 <? length (DNSNames certData))%nat eqn:E; [done |].
    apply Nat.ltb_ge in E. by rewrite take_ge. }
  rewrite Hnames.
  split; [reflexivity |]. split.
  { rewrite !dom_insert_L, dom_empty_L. set_solver. }
  split; [by simplify_map_eq |]. split; [reflexivity |]. split.
  { rewrite length_take. lia. }
  split; [intros Hle; by rewrite take_ge |].
  repeat split; by simplify_map_eq.
Qed.

(** X21: the plain listing returns the display forms of the page's
    serials in page order, no data at all for an empty page, and the
    error of the page request unchanged with a nil response; it never
    reads an entry back. *)
Theorem plain_listing_outcome (b : Backend) (r : Request) (data : FieldData) :
  (∀ entries,
     ListPage (plain (ReqStorage r)) "certs/" (after_ data) (pageLimit (limit_ data))
     = inr entries →
     ∃ resp,
       pathFetchCertList b r data = {| response := Some resp; retErr := None; logged := [] |}
       ∧ (entries = [] → Data resp = ∅)
       ∧ (entries ≠ [] →
          Data resp = {[ "keys" := VStrings (denormalizeSerial b <$> entries) ]})
       ∧ ∀ get,
           pathFetchCertList b
             (onStorage r {| plain := {| ListPage := ListPage (plain (ReqStorage r));
                                         Get := get |};
                             BeginReadOnlyTx := BeginReadOnlyTx (ReqStorage r) |}) data
           = pathFetchCertList b r data)
  ∧ (∀ err,
       ListPage (plain (ReqStorage r)) "certs/" (after_ data) (pageLimit (limit_ data))
       = inl err →
       pathFetchCertList b r data = {| response := None; retErr := Some err; logged := [] |}).
Proof.
  split.
  - intros entries Hpage. unfold pathFetchCertList. rewrite Hpage.
    eexists. split; [reflexivity |]. split; [| split].
    + intros ->. reflexivity.
    + intros Hne. unfold ListResponse, mkResponse; cbn [Data].
      destruct entries; [done | reflexivity].
    + intros get. cbn. by rewrite Hpage.
  - intros err Hpage. unfold pathFetchCertList. by rewrite Hpage.
Qed.

Lemma plain_listing_outcome_witness :
  ∃ resp,
    pathFetchCertList (backend passes noCA [] [] [])
      (listRequest (tableView [("aa", "0a"); ("b-b", "xbad")])) (fields "")
    = {| response := Some resp; retErr := None; logged := [] |}
    ∧ Data resp = {[ "keys" := VStrings ["aa"; "b:b"] ]}.
Proof.
  destruct (plain_listing_outcome (backend passes noCA [] [] [])
              (listRequest (tableView [("aa", "0a"); ("b-b", "xbad")])) (fields ""))
    as [Hok _].
  destruct (Hok ["aa"; "b-b"] eq_refl) as (resp & Hout & _ & Hfull & _).
  exists resp. split; [exact Hout | apply Hfull; discriminate].
Defined.

(** ** Further reads of the CA, the chain and the CRLs *)

(** X22: a raw CA read that the gate lets through, with the CA bundle
    found: [ca] and [cert/ca/raw] answer with the CA certificate's bytes
    verbatim as [application/pkix-cert], [ca/pem] and [cert/ca/raw/pem]
    with their PEM text of type [CERTIFICATE] as
    [application/pem-certificate-chain]. *)
Theorem ca_raw_read (b : Backend) (r : Request) (data : FieldData) (caInfo : CAInfoBundle) :
  classify (Path r) = CAClass → rawPath (Path r) = true → gatePasses b r →
  fetchCAInfo b (defaultRef b) ReadOnlyUsage = inr caInfo →
  pathFetchRead b r data
  = {| response :=
         Some (if isOneOf (Path r) ["ca/pem"; "cert/ca/raw/pem"]
               then rawResponse "application/pem-certificate-chain"
                      (pemText "CERTIFICATE" (CertificateRaw caInfo))
               else rawResponse "application/pkix-cert" (CertificateRaw caInfo));
       retErr := None; logged := [] |}.
Proof.
  intros Hclass Hraw Hgate Hca.
  assert (Hsel : ∃ resp,
            selectResource b r data
            = if isOneOf (Path r) ["ca/pem"; "cert/ca/raw/pem"]
              then Selected resp "ca" "CERTIFICATE" "application/pem-certificate-chain"
              else Selected resp "ca" "" "application/pkix-cert").
  { revert Hclass Hraw Hgate. unfold rawPath, gatePasses, gateClass, classify, selectResource.
    destruct (isOneOf (Path r) caPaths).
    - intros _ Hraw Hgate. specialize (Hgate _ eq_refl).
      destruct (gate b r ifModifiedCA (mkResponse ∅)) as [resp [ret err]].
      cbn in Hgate. injection Hgate as -> ->. exists resp.
      rewrite bool_decide_eq_false_2 by (by intros ?). cbn [orb].
      destruct (isOneOf (Path r) ["ca/pem"; "cert/ca/raw/pem"]); [reflexivity |].
      revert Hraw. by destruct (String.eqb (Path r) "cert/ca").
    - destruct (isOneOf (Path r) chainPaths); [done |].
      destruct (isOneOf (Path r) crlPaths); [done |].
      by destruct (HasSuffix (Path r) "/pem" || HasSuffix (Path r) "/raw"). }
  destruct Hsel as [resp Hsel]. unfold pathFetchRead, resolve.
  destruct (isOneOf (Path r) ["ca/pem"; "cert/ca/raw/pem"]);
    rewrite Hsel; cbn; rewrite Hca; by rewrite reply_raw.
Qed.

Lemma ca_raw_read_witness :
  pathFetchRead (backend passes (rootBundle []) [] [] []) (request "cert/ca/raw/pem") (fields "ca")
  = {| response := Some (rawResponse "application/pem-certificate-chain"
                           (pemText "CERTIFICATE" "0root"));
       retErr := None; logged := [] |}.
Proof.
  apply (ca_raw_read (backend passes (rootBundle []) [] [] [])
           (request "cert/ca/raw/pem") (fields "ca")
           {| CertificateRaw := "0root"; GetFullChain := [] |});
    [reflexivity | reflexivity | | reflexivity].
  intros ty [= <-]. reflexivity.
Defined.

(** X23: the raw chain read [ca_chain] consults no conditional gate and,
    with the CA bundle found, answers with the chain text as
    [application/pkix-cert]: status 200 for a chain that is not empty, an
    empty body with status 204 for an empty one. *)
Theorem ca_chain_raw_read (b : Backend) (r : Request) (data : FieldData)
    (caInfo : CAInfoBundle) :
  Path r = "ca_chain" →
  fetchCAInfo b (defaultRef b) ReadOnlyUsage = inr caInfo →
  gateClass (Path r) = None
  ∧ pathFetchRead b r data
    = {| response := Some (rawResponse "application/pkix-cert"
                             (caChainText (GetFullChain caInfo)));
         retErr := None; logged := [] |}
  ∧ statusFor (caChainText (GetFullChain caInfo))
    = (if bool_decide (GetFullChain caInfo ≠ []) then 200 else 204).
Proof.
  intros Hpath Hca. split; [by rewrite Hpath |]. split.
  - unfold pathFetchRead, resolve, selectResource. rewrite Hpath. cbn.
    rewrite Hca. by rewrite reply_raw.
  - unfold statusFor. by rewrite caChainText_length.
Qed.

Lemma ca_chain_raw_read_witness :
  pathFetchRead (backend (true, Some markerUnreadable) (rootBundle ["0root"]) [] [] [])
                (request "ca_chain") (fields "")
  = {| response := Some (rawResponse "application/pkix-cert"
                           (caChainText [ {| BlockBytes := "0root" |} ]));
       retErr := None; logged := [] |}.
Proof.
  destruct (ca_chain_raw_read
              (backend (true, Some markerUnreadable) (rootBundle ["0root"]) [] [] [])
              (request "ca_chain") (fields "")
              {| CertificateRaw := "0root"; GetFullChain := [ {| BlockBytes := "0root" |} ] |}
              eq_refl eq_refl) as (_ & Hout & _).
  exact Hout.
Defined.

(** X24: the structured CRL reads [cert/crl] and [cert/delta-crl], let
    through by the gate with the response untouched: a stored CRL with no
    revocation entry under its name is returned as PEM text of type
    [X509 CRL] in [certificate], with a zero [revocation_time] and no
    [issuer_id]; [cert/delta-crl] reads the delta CRL, [cert/crl] the
    complete one. *)
Theorem structured_crl_read (b : Backend) (r : Request) (data : FieldData)
    (serial : string) (ty : ifModifiedReqType) (entry : StorageEntry) :
  isOneOf (Path r) ["cert/crl"; "cert/delta-crl"] = true →
  ty = (if String.eqb (Path r) "cert/delta-crl" then ifModifiedDeltaCRL else ifModifiedCRL) →
  serial = (if String.eqb (Path r) "cert/delta-crl" then deltaCRLPath b
            else legacyCRLPath b) →
  gate b r ty (mkResponse ∅) = (mkResponse ∅, (false, None)) →
  serial ≠ "" → serial ≠ "ca" → serial ≠ "ca_chain" →
  fetchCertBySerial b (Path r) serial = inr (Some entry) →
  fetchCertBySerial b "revoked/" serial = inr None →
  ∃ resp,
    pathFetchRead b r data = {| response := Some resp; retErr := None; logged := [] |}
    ∧ Data resp !! "certificate" = Some (VString (pemText "X509 CRL" (Value entry)))
    ∧ Data resp !! "revocation_time" = Some (VInt 0)
    ∧ Data resp !! "issuer_id" = None
    ∧ Data resp !! HTTPRawBody = None.
Proof.
  intros Hpath Hty Hserial Hgate H0 H1 H2 Hcert Hrev.
  destruct (serial_not_reserved _ H0 H1 H2) as [Hlen Hres].
  assert (Hsel : selectResource b r data = Selected (mkResponse ∅) serial "X509 CRL" "").
  { unfold isOneOf in Hpath. cbn [existsb] in Hpath.
    unfold selectResource.
    destruct (String.eqb_spec (Path r) "cert/crl") as [Hp | _].
    - rewrite Hp in *. cbn in Hty, Hserial. subst ty serial.
      change (isOneOf "cert/crl" caPaths) with false.
      change (isOneOf "cert/crl" chainPaths) with false.
      change (isOneOf "cert/crl" crlPaths) with true.
      change (Contains "cert/crl" "delta") with false. cbn iota.
      rewrite Hgate. reflexivity.
    - destruct (String.eqb_spec (Path r) "cert/delta-crl") as [Hp | _]; [| discriminate].
      rewrite Hp in *. cbn in Hty, Hserial. subst ty serial.
      change (isOneOf "cert/delta-crl" caPaths) with false.
      change (isOneOf "cert/delta-crl" chainPaths) with false.
      change (isOneOf "cert/delta-crl" crlPaths) with true.
      change (Contains "cert/delta-crl" "delta") with true. cbn iota.
      rewrite Hgate. reflexivity. }
  destruct (reply_structured b (pemText "X509 CRL" (Value entry)) 0 "" "")
    as (resp & Hout & Hc & Ht & _ & Hi & _).
  exists resp. unfold pathFetchRead, resolve.
  rewrite Hsel, Hlen, Hres, Hcert, Hrev.
  change (nonEmpty "X509 CRL") with true. cbn iota.
  split; [exact Hout |]. split; [exact Hc |]. split; [exact Ht |]. split; [exact Hi |].
  revert Hout. unfold reply.
  cbn [st_contentType st_retErr st_response st_certificate st_fullChain
       st_revocationTime st_revocationIssuerId st_revocationTimeRfc3339].
  change (nonEmpty "") with false. cbn iota. rewrite IsError_fresh.
  change (negb (String.eqb "" "")) with false.
  change (0 <? String.length "")%nat with false. cbn iota.
  intros [= <-]. unfold setData, mkResponse, HTTPRawBody; cbn [Data]. by simplify_map_eq.
Qed.

Lemma structured_crl_read_witness :
  ∃ resp,
    pathFetchRead
      (withResolvers (backend passes noCA [] [] []) (λ _ _, noCA)
         (λ prefix serial,
            if String.prefix "revoked/" prefix then inr None
            else if String.eqb serial "crl"
                 then inr (Some {| Key := "crl"; Value := "0crl" |})
                 else inr None)
         (λ _, inl storageDown))
      (request "cert/crl") (fields "crl")
    = {| response := Some resp; retErr := None; logged := [] |}
    ∧ Data resp !! "certificate" = Some (VString (pemText "X509 CRL" "0crl")).
Proof.
  destruct (structured_crl_read
              (withResolvers (backend passes noCA [] [] []) (λ _ _, noCA)
                 (λ prefix serial,
                    if String.prefix "revoked/" prefix then inr None
                    else if String.eqb serial "crl"
                         then inr (Some {| Key := "crl"; Value := "0crl" |})
                         else inr None)
                 (λ _, inl storageDown))
              (request "cert/crl") (fields "crl") "crl" ifModifiedCRL
              {| Key := "crl"; Value := "0crl" |})
    as (resp & Hout & Hc & _);
    [reflexivity | reflexivity | reflexivity | reflexivity
     | discriminate | discriminate | discriminate | reflexivity | reflexivity |].
  exists resp. split; assumption.
Defined.

Section ReplyExits.

Context (b : Backend).

Lemma reply_error_response (text certificate : string) :
  reply b (atReply (Some (ErrorResponse text)) None "" certificate "" 0 "" "")
  = {| response := Some (ErrorResponse text); retErr := None; logged := [] |}.
Proof. reflexivity. Qed.

Lemma reply_pending_error (resp : option Response) (e : error) (certificate : string) :
  reply b (atReply resp (Some e) "" certificate "" 0 "" "")
  = {| response := None; retErr := Some e; logged := [] |}.
Proof. reflexivity. Qed.

End ReplyExits.

(** X25: on the structured serial path an empty result (nil response, no
    error) is returned only for an absent certificate: it means that the
    certificate look-up found no entry. *)
Theorem empty_result_means_absent (b : Backend) (r : Request) (data : FieldData) :
  classify (Path r) = SerialClass →
  serial_ data ≠ "" → serial_ data ≠ "ca" → serial_ data ≠ "ca_chain" →
  response (pathFetchRead b r data) = None →
  retErr (pathFetchRead b r data) = None →
  fetchCertBySerial b (Path r) (serial_ data) = inr None.
Proof.
  intros Hclass H0 H1 H2.
  pose proof (select_serial b r data Hclass) as Hsel.
  destruct (serial_not_reserved _ H0 H1 H2) as [Hlen Hres].
  unfold pathFetchRead, resolve. rewrite Hsel, Hlen, Hres.
  destruct (fetchCertBySerial b (Path r) (serial_ data)) as [e | [certEntry |]];
    [| | done].
  - destruct (isUserError e).
    + rewrite reply_error_response. discriminate.
    + rewrite reply_pending_error. discriminate.
  - change (nonEmpty "CERTIFICATE") with true. cbn iota.
    destruct (fetchCertBySerial b "revoked/" (serial_ data)) as [e | [re |]].
    + destruct (isUserError e).
      * rewrite reply_error_response. discriminate.
      * rewrite reply_pending_error. discriminate.
    + destruct (DecodeJSON b re) as [e | info]; [discriminate |].
      destruct (reply_structured b (pemText "CERTIFICATE" (Value certEntry))
                  (RevocationTime info) (CertificateIssuer info)
                  (if negb (IsZero (RevocationTimeUTC info))
                   then formatRFC3339Nano b (RevocationTimeUTC info) else ""))
        as (resp & -> & _). discriminate.
    + destruct (reply_structured b (pemText "CERTIFICATE" (Value certEntry)) 0 "" "")
        as (resp & -> & _). discriminate.
Qed.

Lemma empty_result_means_absent_witness :
  fetchCertBySerial (backend passes noCA [("1a-2b-3c", "0leaf")] [] [])
    "cert/ff" "ff" = inr None.
Proof.
  apply (empty_result_means_absent (backend passes noCA [("1a-2b-3c", "0leaf")] [] [])
           (request "cert/ff") (fields "ff"));
    [reflexivity | discriminate | discriminate | discriminate | reflexivity | reflexivity].
Defined.

Section ListingOutcome.

Context (b : Backend) (view : StorageView).

Lemma listLoop_outcome (entries keys : list string) (info : gmap string value) :
  logged (listLoop b view entries keys info) = []
  ∧ (∀ e, retErr (listLoop b view entries keys info) = Some e →
       response (listLoop b view entries keys info) = None
       ∧ ∃ k, k ∈ entries ∧ Get view ("certs/" +:+ k) = inl e)
  ∧ (retErr (listLoop b view entries keys info) = None →
     is_Some (response (listLoop b view entries keys info))).
Proof.
  revert keys info. induction entries as [|x rest IH]; intros keys info.
  - cbn [listLoop done logged retErr response].
    split; [done |]. split; [intros e; discriminate | intros _; by eexists].
  - cbn [listLoop].
    destruct (Get view ("certs/" +:+ x)) as [gerr | [entry |]] eqn:Hget.
    + cbn [done logged retErr response]. split; [done |]. split; [| discriminate].
      intros e [= <-]. split; [done |]. exists x. split; [| done].
      apply elem_of_cons. by left.
    + destruct (ParseCertificate b (Value entry)) as [perr | certData].
      * cbn [done logged retErr response].
        split; [done |]. split; [intros e; discriminate | intros _; by eexists].
      * destruct (IH (keys ++ [denormalizeSerial b x])%list
                     (<[denormalizeSerial b x := certInfo certData]> info))
          as (Hlog & Herr & Hok).
        split; [exact Hlog |]. split; [| exact Hok].
        intros e He. destruct (Herr e He) as (Hnil & k & Hk & Hget').
        split; [exact Hnil |]. exists k. split; [| done].
        apply elem_of_cons. by right.
    + cbn [done logged retErr response].
      split; [done |]. split; [intros e; discriminate | intros _; by eexists].
Qed.

End ListingOutcome.

(** X26: the detailed listing logs nothing and never returns a response
    together with an error; an error it returns is the error of starting
    the transaction, of the page request or of reading back an entry of
    the page, and without an error it always returns a response. *)
Theorem detailed_listing_outcome_shape (b : Backend) (r : Request) (data : FieldData) :
  logged (pathFetchCertListDetailed b r data) = []
  ∧ (∀ e, retErr (pathFetchCertListDetailed b r data) = Some e →
       response (pathFetchCertListDetailed b r data) = None
       ∧ ((∃ err, BeginReadOnlyTx (ReqStorage r) = Some (inl err))
          ∨ ∃ view,
              openReadOnly (ReqStorage r) = inr view
              ∧ (ListPage view "certs/" (after_ data) (pageLimit (limit_ data)) = inl e
                 ∨ ∃ k, Get view ("certs/" +:+ k) = inl e)))
  ∧ (retErr (pathFetchCertListDetailed b r data) = None →
     is_Some (response (pathFetchCertListDetailed b r data))).
Proof.
  unfold pathFetchCertListDetailed.
  destruct (openReadOnly (ReqStorage r)) as [oerr | view] eqn:Hopen.
  - cbn [done logged retErr response].
    split; [done |]. split; [| discriminate]. intros e _. split; [done |]. left.
    unfold openReadOnly in Hopen.
    destruct (BeginReadOnlyTx (ReqStorage r)) as [[err | txn] |]; [by eexists | done | done].
  - destruct (ListPage view "certs/" (after_ data) (pageLimit (limit_ data)))
      as [perr | entries] eqn:Hpage.
    + cbn [done logged retErr response].
      split; [done |]. split; [| discriminate]. intros e [= <-]. split; [done |].
      right. exists view. split; [done | by left].
    + destruct (listLoop_outcome b view entries [] ∅) as (Hlog & Herr & Hok).
      split; [exact Hlog |]. split; [| exact Hok].
      intros e He. destruct (Herr e He) as (Hnil & k & _ & Hget).
      split; [exact Hnil |]. right. exists view. split; [done |]. right. by exists k.
Qed.

Lemma cert_info_fields_witness :
  ∃ m names,
    certInfo {| SubjectCommonName := "leaf"; IssuerString := "CN=root";
                CertPublicKey := RSAPublicKey 256; NotAfter := 2000000000;
                NotBefore := 1700000000; DNSNames := ["a.example"; "b.example"] |}
    = VMap m
    ∧ m !! "dns_names" = Some (VStrings names)
    ∧ names = ["a.example"; "b.example"].
Proof.
  destruct (cert_info_fields
              {| SubjectCommonName := "leaf"; IssuerString := "CN=root";
                 CertPublicKey := RSAPublicKey 256; NotAfter := 2000000000;
                 NotBefore := 1700000000; DNSNames := ["a.example"; "b.example"] |})
    as (m & names & Hm & _ & Hdns & _ & _ & Hall & _).
  exists m, names. split; [exact Hm |]. split; [exact Hdns |].
  apply Hall. cbn. lia.
Defined.

Lemma detailed_listing_outcome_shape_witness :
  response (pathFetchCertListDetailed (backend passes noCA [] [] [])
              (listRequest (failingView [("aa", "0a"); ("bb", "0b")] "bb" storageDown))
              (fields "")) = None.
Proof.
  destruct (detailed_listing_outcome_shape (backend passes noCA [] [] [])
              (listRequest (failingView [("aa", "0a"); ("bb", "0b")] "bb" storageDown))
              (fields "")) as (_ & Herr & _).
  destruct (Herr storageDown) as [Hnil _]; [reflexivity | exact Hnil].
Defined.
